(** * Tech Price Comparator: the extractor, the fetcher and the aggregator

    A shallow embedding of [server.py]: [find_element], the [WEBSITES]
    registry, [fetch_price], [compare_prices] and [get_available_websites],
    with the properties of its specification stated over them.

    Conventions.
    - A Python [str] is a [string]; each [ascii] stands for one code point
      below 256.  [isdigit], [isspace] and [repr] are exact on that range;
      case mapping ([title]) is modelled on ASCII letters, which is what
      the source identifiers of the registry are made of.
    - A Python [dict] read by key only is a [gmap]; the registry, whose
      iteration order matters, is an association list in insertion order.
    - Exceptions and [print] are threaded through a small state-and-error
      monad [M]: the state is the list of lines written to standard output.
    - What the program obtains from outside (HTTP responses, the clock) is
      an explicit [world]; what it borrows from libraries whose results are
      not computed here (binary floating point, CSS selection, HTML parsing)
      is an interface, [Runtime]. *)

From stdpp Require Import gmap strings list sorting pretty.
From Stdlib Require Import Ascii QArith.

Local Open Scope Z_scope.

(** ** Python strings *)

Module Str.

Definition LF : string := String "010"%char "".

Definition code (c : ascii) : N := Ascii.N_of_ascii c.

(** [c.isdigit()]: the decimal digits and, below 256, the superscripts
    U+00B2, U+00B3 and U+00B9. *)
Definition isdigit (c : ascii) : bool :=
  let n := code c in
  ((48 <=? n) && (n <=? 57) || (n =? 178) || (n =? 179) || (n =? 185))%N.

(** [c.isdecimal()], the characters [float] reads as digits. *)
Definition isdecimal (c : ascii) : bool :=
  let n := code c in ((48 <=? n) && (n <=? 57))%N.

(** [c.isspace()], the characters removed by [strip]. *)
Definition isspace (c : ascii) : bool :=
  let n := code c in
  ((9 <=? n) && (n <=? 13) || (28 <=? n) && (n <=? 32)
   || (n =? 133) || (n =? 160))%N.

(** [''.join(filter(p, s))] *)
Fixpoint filter (p : ascii → bool) (s : string) : string :=
  match s with
  | "" => ""
  | String c s' => if p c then String c (filter p s') else filter p s'
  end.

Fixpoint lstrip (s : string) : string :=
  match s with
  | "" => ""
  | String c s' => if isspace c then lstrip s' else s
  end.

Fixpoint rstrip (s : string) : string :=
  match s with
  | "" => ""
  | String c s' =>
      match rstrip s' with
      | "" => if isspace c then "" else String c ""
      | t => String c t
      end
  end.

(** [s.strip()] *)
Definition strip (s : string) : string := rstrip (lstrip s).

Fixpoint forallb (p : ascii → bool) (s : string) : bool :=
  match s with
  | "" => true
  | String c s' => p c && forallb p s'
  end.

(** [s.replace(old, new)] for a non-empty [old]: occurrences are found from
    the left and do not overlap.  [skip] counts the characters of the
    occurrence just replaced that are still to be passed over. *)
Fixpoint replace_go (old new : string) (skip : nat) (s : string) : string :=
  match s with
  | "" => ""
  | String c s' =>
      match skip with
      | S k => replace_go old new k s'
      | O =>
          if String.prefix old s
          then new +:+ replace_go old new (String.length old - 1) s'
          else String c (replace_go old new O s')
      end
  end.

Definition replace (old new s : string) : string := replace_go old new O s.

Definition isupper (c : ascii) : bool :=
  let n := code c in ((65 <=? n) && (n <=? 90))%N.
Definition islower (c : ascii) : bool :=
  let n := code c in ((97 <=? n) && (n <=? 122))%N.
Definition iscased (c : ascii) : bool := isupper c || islower c.
Definition upper (c : ascii) : ascii :=
  if islower c then Ascii.ascii_of_N (code c - 32) else c.
Definition lower (c : ascii) : ascii :=
  if isupper c then Ascii.ascii_of_N (code c + 32) else c.

(** [s.title()]: a cased character is upper-cased when the character
    before it is not cased, and lower-cased otherwise. *)
Fixpoint title_go (previous_is_cased : bool) (s : string) : string :=
  match s with
  | "" => ""
  | String c s' =>
      String (if previous_is_cased then lower c else upper c)
             (title_go (iscased c) s')
  end.

Definition title (s : string) : string := title_go false s.

(** [sep.join(l)] *)
Fixpoint join (sep : string) (l : list string) : string :=
  match l with
  | [] => ""
  | [x] => x
  | x :: l' => x +:+ sep +:+ join sep l'
  end.

Definition single_quote : ascii := "039"%char.
Definition double_quote : ascii := "034"%char.
Definition backslash : ascii := "092"%char.

Fixpoint contains (c : ascii) (s : string) : bool :=
  match s with
  | "" => false
  | String c' s' => bool_decide (c' = c) || contains c s'
  end.

(** [c.isprintable()]: the characters [repr] writes as they are.  Below
    256 these are the ASCII characters from the space to the tilde, and
    the characters from U+00A1 on but the soft hyphen U+00AD. *)
Definition isprintable (c : ascii) : bool :=
  let n := code c in
  ((32 <=? n) && (n <? 127) || (161 <=? n) && negb (n =? 173))%N.

Definition hex_lower (n : N) : ascii :=
  Ascii.ascii_of_N (if (n <? 10)%N then 48 + n else 87 + n).

(** The body of [repr(s)] and its closing quote: the quote and the
    backslash are escaped with a backslash, the tab, the line feed and the
    carriage return are written [\t], [\n] and [\r], a character that is
    not printable is written [\x] and two hexadecimal digits, and any other
    character is written as it is. *)
Fixpoint repr_go (quote : ascii) (s : string) : string :=
  match s with
  | "" => String quote ""
  | String c s' =>
      let n := code c in
      let rest := repr_go quote s' in
      if bool_decide (c = quote) || bool_decide (c = backslash)
      then String backslash (String c rest)
      else if (n =? 9)%N then String backslash (String "t" rest)
      else if (n =? 10)%N then String backslash (String "n" rest)
      else if (n =? 13)%N then String backslash (String "r" rest)
      else if isprintable c then String c rest
      else String backslash
             (String "x" (String (hex_lower (n / 16))
                            (String (hex_lower (n mod 16)) rest)))
  end.

(** [repr(s)]: between single quotes, or between double quotes when [s]
    holds a single quote and no double quote. *)
Definition repr (s : string) : string :=
  let quote :=
    if contains single_quote s && negb (contains double_quote s)
    then double_quote else single_quote in
  String quote (repr_go quote s).

End Str.

(** ** Exceptions *)

(** The exceptions the program can meet, all of them instances of
    [Exception].  [fetch_price] tells [asyncio.TimeoutError] from the
    others; for those only [str(e)] is observed.  What is not an
    [Exception] (the cancellation of a task, the exit of the interpreter)
    is raised by no step modelled here. *)
Inductive exn :=
| TimeoutError
| KeyError (key : string)
| ValueError (msg : string)
| IndexError (msg : string)
| OtherError (msg : string).

(** [str(e)] *)
Definition exn_str (e : exn) : string :=
  match e with
  | TimeoutError => ""
  | KeyError key => Str.repr key
  | ValueError msg | IndexError msg | OtherError msg => msg
  end.

Inductive result (A : Type) :=
| Ok (a : A)
| Raise (e : exn).
Arguments Ok {A} a.
Arguments Raise {A} e.

(** [template.format(arg)] with one positional argument, for templates
    made of literal text, the escapes [{{] and [}}], and the auto-numbered
    field [{}].  A second [{}] finds no argument; a brace that opens or
    closes nothing is an error.  Named, indexed and formatted fields do
    not occur in the registry and are not modelled: they raise here. *)
Fixpoint str_format_go (arg : string) (used : bool) (t : string) : result string :=
  match t with
  | "" => Ok ""
  | String "{" (String "{" t') =>
      match str_format_go arg used t' with
      | Ok r => Ok (String "{" r)
      | Raise e => Raise e
      end
  | String "{" (String "}" t') =>
      if used
      then Raise (IndexError
             "Replacement index 1 out of range for positional args tuple")
      else match str_format_go arg true t' with
           | Ok r => Ok (arg +:+ r)
           | Raise e => Raise e
           end
  | String "{" _ => Raise (ValueError "unsupported replacement field")
  | String "}" (String "}" t') =>
      match str_format_go arg used t' with
      | Ok r => Ok (String "}" r)
      | Raise e => Raise e
      end
  | String "}" _ =>
      Raise (ValueError "Single '}' encountered in format string")
  | String c t' =>
      match str_format_go arg used t' with
      | Ok r => Ok (String c r)
      | Raise e => Raise e
      end
  end.

Definition str_format (template arg : string) : result string :=
  str_format_go arg false template.

(** The value of a run of decimal digits, most significant first. *)
Fixpoint digits_value (acc : Z) (s : string) : Z :=
  match s with
  | "" => acc
  | String c s' => digits_value (10 * acc + (Z.of_N (Str.code c) - 48)) s'
  end.

(** Splits at the first ['.']: the text before it and, when there is one,
    the text after it. *)
Fixpoint split_point (s : string) : string * option string :=
  match s with
  | "" => ("", None)
  | String c s' =>
      if bool_decide (c = "."%char) then ("", Some s')
      else let '(i, f) := split_point s' in (String c i, f)
  end.

(** The decimal literals [float] accepts among the strings made of
    [isdigit] characters and ['.'], which are the only strings
    [fetch_price] hands to it: [digits], [digits.], [digits.digits] and
    [.digits], with decimal digits only.  The result is the exact value of
    the literal, in lowest terms; [None] stands for [ValueError]. *)
Definition decimal_literal (s : string) : option Q :=
  let '(i, f) := split_point s in
  let f' := default "" f in
  if Str.forallb Str.isdecimal i && Str.forallb Str.isdecimal f'
     && negb (bool_decide (i +:+ f' = ""))
  then Some (Qred (Qmake (digits_value 0 (i +:+ f'))
                         (Z.to_pos (10 ^ Z.of_nat (String.length f')))))
  else None.

(** ** Parsed documents and the searches of [bs4] *)

(** The value of an attribute of a tag: a string, or the list of
    whitespace-separated tokens the parser keeps for multi-valued
    attributes such as [class]. *)
Inductive attr_value :=
| AttrStr (s : string)
| AttrList (l : list string).

#[warnings="-register-all"] Inductive node :=
| NavigableString (s : string)
| Tag (name : string) (attrs : gmap string attr_value) (contents : list node).

(** A [BeautifulSoup] object, by its top-level contents. *)
Definition soup := list node.

(** [tag.descendants]: the nodes below a tag, in document order. *)
Fixpoint descendants (n : node) : list node :=
  match n with
  | NavigableString _ => []
  | Tag _ _ contents =>
      (fix go (l : list node) : list node :=
         match l with
         | [] => []
         | c :: l' => c :: descendants c ++ go l'
         end) contents
  end.

Definition soup_descendants (s : soup) : list node :=
  flat_map (λ c, c :: descendants c) s.

(** [tag.text]: the strings below a tag, concatenated. *)
Fixpoint text (n : node) : string :=
  match n with
  | NavigableString s => s
  | Tag _ _ contents =>
      (fix go (l : list node) : string :=
         match l with
         | [] => ""
         | c :: l' => text c +:+ go l'
         end) contents
  end.

(** [SoupStrainer._matches] for a string criterion (bs4 4.12): an absent
    attribute matches only the empty criterion; a multi-valued attribute
    matches by any of its tokens or by its tokens joined with spaces. *)
Definition matches (value : option attr_value) (match_against : string) : bool :=
  match value with
  | None => bool_decide (match_against = "")
  | Some (AttrStr s) => bool_decide (s = match_against)
  | Some (AttrList l) =>
      bool_decide (match_against ∈ l)
      || bool_decide (Str.join " " l = match_against)
  end.

Definition name_matches (name : option string) (n : node) : bool :=
  match n, name with
  | Tag nm _ _, Some x => bool_decide (nm = x)
  | Tag _ _ _, None => true
  | NavigableString _, _ => false
  end.

Definition attrs_match (criteria : gmap string string) (n : node) : bool :=
  match n with
  | Tag _ attrs _ =>
      bool_decide (map_Forall (λ k v, matches (attrs !! k) v = true) criteria)
  | NavigableString _ => false
  end.

(** [SoupStrainer.search_tag]: the name, when one is asked for, and every
    attribute criterion hold of the same tag. *)
Definition search_tag (name : option string) (criteria : gmap string string)
    (n : node) : bool :=
  name_matches name n && attrs_match criteria n.

(** [soup.find(name, attrs)] with string criteria: the first tag, in
    document order, that [search_tag] accepts. *)
Definition find (name : option string) (criteria : gmap string string)
    (s : soup) : option node :=
  List.find (search_tag name criteria) (soup_descendants s).

(** ** Selectors *)

(** The values a selector dictionary holds: strings, and for ['attrs'] a
    dictionary of strings. *)
Inductive value :=
| VStr (s : string)
| VDict (d : gmap string string).

(** Python objects that are neither [str] nor [dict]. *)
Inductive pyobject :=
| PyNone
| PyBool (b : bool)
| PyInt (z : Z)
| PyList (l : list string).

Inductive selector :=
| SelStr (s : string)
| SelDict (d : gmap string value)
| SelOther (o : pyobject).

(** ** Library interface *)

(** What the program takes from libraries and the model does not compute:
    - [float]: the values [float()] returns on decimal literals (binary
      floating-point numbers, none of them NaN), the correctly rounded
      [float_of_decimal], the comparison [<] used by [sort], and the
      format [:.2f];
    - [select_one]: CSS selection, which may raise on a malformed selector;
    - [find_other]: what [soup.find] does with a criterion of another type
      than the registry uses (a dictionary where a string is expected),
      given the keyword it is passed under;
    - [BeautifulSoup]: the HTML parser. *)
Class Runtime := {
  float : Type;
  float_of_decimal : Q → float;
  float_lt : float → float → bool;
  format_2f : float → string;
  select_one : soup → string → result (option node);
  find_other : soup → string → value → result (option node);
  BeautifulSoup : string → soup;
}.

(** ** Effects *)

(** Standard output, as the lines printed so far. *)
Definition stdout := list string.

(** A computation reads and extends the output and either returns a value
    or raises. *)
Definition M (A : Type) : Type := stdout → result A * stdout.

Global Instance M_ret : MRet M := λ A a out, (Ok a, out).

Global Instance M_bind : MBind M := λ A B k m out,
  match m out with
  | (Ok a, out') => k a out'
  | (Raise e, out') => (Raise e, out')
  end.

(** A library call that returns or raises without printing. *)
Definition lift {A} (r : result A) : M A := λ out, (r, out).

(** [print(line)] *)
Definition print (line : string) : M unit := λ out, (Ok tt, out ++ [line]).

(** [try: body / except Exception as e: handler(e)] *)
Definition try_except {A} (body : M A) (handler : exn → M A) : M A := λ out,
  match body out with
  | (Ok a, out') => (Ok a, out')
  | (Raise e, out') => handler e out'
  end.

(** [await asyncio.gather] over the tasks: the results, in the order of
    the tasks.  The tasks of the program run concurrently and their printed
    lines may interleave; here the lines of one task follow those of the
    task before it. *)
Fixpoint gather {A} (tasks : list (M A)) : M (list A) :=
  match tasks with
  | [] => mret []
  | t :: tasks' => r ← t; rs ← gather tasks'; mret (r :: rs)
  end.

(** ** The outside world *)

(** An HTTP response: its status and what [await response.text()] gives. *)
Record response := {
  status : Z;
  response_text : result string;
}.

(** What the network answers to a GET of a URL with given headers within
    the ten-second timeout, and the clock reading that stamps the record of
    a source. *)
Record world := {
  http_get : string → list (string * string) → result response;
  now_isoformat : string → string;
}.

(** ** The registry *)

Record config := {
  url : string;
  price_selector : selector;
  name_selector : selector;
  headers : list (string * string);
}.

(** [registry[website]] *)
Fixpoint registry_lookup (registry : list (string * config)) (website : string)
    : result config :=
  match registry with
  | [] => Raise (KeyError website)
  | (k, c) :: registry' =>
      if bool_decide (k = website) then Ok c
      else registry_lookup registry' website
  end.

(** [registry.keys()], in insertion order. *)
Definition registry_keys (registry : list (string * config)) : list string :=
  map fst registry.

Definition browser_headers : list (string * string) :=
  [ ("User-Agent", "Mozilla/5.0 (Macintosh; Intel Mac OS X 10_15_7) AppleWebKit/537.36 (KHTML, like Gecko) Chrome/122.0.0.0 Safari/537.36");
    ("Accept", "text/html,application/xhtml+xml,application/xml;q=0.9,image/avif,image/webp,image/apng,*/*;q=0.8");
    ("Accept-Language", "en-US,en;q=0.9");
    ("Accept-Encoding", "gzip, deflate, br");
    ("Connection", "keep-alive");
    ("Upgrade-Insecure-Requests", "1");
    ("Sec-Fetch-Dest", "document");
    ("Sec-Fetch-Mode", "navigate");
    ("Sec-Fetch-Site", "none");
    ("Sec-Fetch-User", "?1");
    ("Cache-Control", "max-age=0") ].

Definition amazon : config :=
  {| url := "https://www.amazon.com/s?k={}";
     price_selector := SelDict {[ "class" := VStr "a-price-whole" ]};
     name_selector := SelDict {[ "class" := VStr "a-size-medium" ]};
     headers := browser_headers |}.

Definition bestbuy : config :=
  {| url := "https://www.bestbuy.com/site/searchpage.jsp?st={}";
     price_selector := SelDict {[ "class" := VStr "priceView-customer-price" ]};
     name_selector :=
       SelDict (<[ "tag" := VStr "h4" ]>
                  {[ "attrs" := VDict {[ "class" := "sku-title" ]} ]});
     headers := browser_headers |}.

Definition newegg : config :=
  {| url := "https://www.newegg.com/p/pl?d={}";
     price_selector := SelDict {[ "class" := VStr "price-current" ]};
     name_selector :=
       SelDict (<[ "tag" := VStr "a" ]>
                  {[ "attrs" := VDict {[ "class" := "item-title" ]} ]});
     headers := browser_headers |}.

Definition WEBSITES : list (string * config) :=
  [ ("amazon", amazon); ("bestbuy", bestbuy); ("newegg", newegg) ].

(** ** Lists *)

(** [l[0]] *)
Definition list_first {A} (l : list A) : result A :=
  match l with
  | x :: _ => Ok x
  | [] => Raise (IndexError "list index out of range")
  end.

(** [l[-1]] *)
Definition list_last {A} (l : list A) : result A :=
  match last l with
  | Some x => Ok x
  | None => Raise (IndexError "list index out of range")
  end.

(** [list.sort]: a stable sort that compares with [<] only.  An element
    passes those strictly below it and stops before the first that is not. *)
Fixpoint sort_insert {A} (lt : A → A → bool) (x : A) (l : list A) : list A :=
  match l with
  | [] => [x]
  | y :: l' => if lt y x then y :: sort_insert lt x l' else x :: l
  end.

Definition list_sort {A} (lt : A → A → bool) (l : list A) : list A :=
  foldr (sort_insert lt) [] l.

(** [a] is not above [b]: the order a sorted list is in. *)
Definition not_above {A} (lt : A → A → bool) (a b : A) : Prop :=
  lt b a = false.

(** Neither is below the other: the elements a stable sort keeps in their
    order. *)
Definition equivalent {A} (lt : A → A → bool) (z a : A) : bool :=
  negb (lt z a) && negb (lt a z).

Section Program.
Context `{RT : Runtime}.

(** [float(s)] on the strings [fetch_price] builds. *)
Definition float_of_str (s : string) : result float :=
  match decimal_literal s with
  | Some q => Ok (float_of_decimal q)
  | None =>
      Raise (ValueError
        ("could not convert string to float: " +:+ Str.repr s))
  end.

(** [soup.find(class_=v)] and [soup.find(id=v)] *)
Definition soup_find_attr (key : string) (s : soup) (v : value)
    : result (option node) :=
  match v with
  | VStr x => Ok (find None {[ key := x ]} s)
  | VDict _ => find_other s key v
  end.

(** [soup.find(v)] *)
Definition soup_find_name (s : soup) (v : value) : result (option node) :=
  match v with
  | VStr x => Ok (find (Some x) ∅ s)
  | VDict _ => find_other s "name" v
  end.

(** [soup.find(attrs=v)]; an [attrs] that is not a dictionary is a search
    by class. *)
Definition soup_find_attrs (s : soup) (v : value) : result (option node) :=
  match v with
  | VDict d => Ok (find None d s)
  | VStr x => Ok (find None {[ "class" := x ]} s)
  end.

Definition find_element (soup : soup) (selector : selector)
    : result (option node) :=
  match selector with
  | SelStr s => select_one soup s
  | SelDict d =>
      match d !! "class" with
      | Some v => soup_find_attr "class" soup v
      | None =>
      match d !! "id" with
      | Some v => soup_find_attr "id" soup v
      | None =>
      match d !! "tag" with
      | Some v => soup_find_name soup v
      | None =>
      match d !! "attrs" with
      | Some v => soup_find_attrs soup v
      | None => Ok None
      end end end end
  | SelOther _ => Ok None
  end.

(** The dictionary [fetch_price] returns. *)
Record price_record := {
  website : string;
  name : string;
  price : float;
  record_url : string;
  timestamp : string;
}.

(** [lambda x: x.isdigit() or x == '.'] *)
Definition digit_or_point (x : ascii) : bool :=
  Str.isdigit x || bool_decide (x = "."%char).

(** The request URL of a source for a product. *)
Definition request_url (c : config) (product_name : string) : result string :=
  str_format (url c) (Str.replace " " "+" product_name).

(** [fetch_price], without the random delay before the request, which
    changes no result. *)
Definition fetch_price (registry : list (string * config)) (w : world)
    (website product_name : string) : M (option price_record) :=
  try_except
    (config ← lift (registry_lookup registry website);
     url ← lift (request_url config product_name);
     response ← lift (http_get w url (headers config));
     if bool_decide (status response = 200) then
       html ← lift (response_text response);
       let soup := BeautifulSoup html in
       price_element ← lift (find_element soup (price_selector config));
       name_element ← lift (find_element soup (name_selector config));
       match price_element, name_element with
       | Some price_element, Some name_element =>
           let price_text := Str.strip (text price_element) in
           price ← lift (float_of_str (Str.filter digit_or_point price_text));
           mret (Some {| website := website;
                         name := Str.strip (text name_element);
                         price := price;
                         record_url := url;
                         timestamp := now_isoformat w website |})
       | _, _ => mret None
       end
     else
       print ("Failed to fetch page from " +:+ website
              +:+ ". Status code: " +:+ pretty (status response));;
       mret None)
    (λ e,
       match e with
       | TimeoutError =>
           print ("Request timed out for " +:+ website);; mret None
       | _ =>
           print ("Error fetching from " +:+ website +:+ ": " +:+ exn_str e);;
           mret None
       end).

(** One entry of the numbered list, for [enumerate(valid_results, 1)]. *)
Definition render_entry (i : nat) (r : price_record) : string :=
  Str.LF +:+ pretty i +:+ ". " +:+ Str.title (website r) +:+ ":" +:+ Str.LF
  +:+ "   Product: " +:+ name r +:+ Str.LF
  +:+ "   Price: $" +:+ format_2f (price r) +:+ Str.LF
  +:+ "   URL: " +:+ record_url r +:+ Str.LF.

Fixpoint render_entries (i : nat) (l : list price_record) : string :=
  match l with
  | [] => ""
  | r :: l' => render_entry i r +:+ render_entries (S i) l'
  end.

Definition render_header (product_name : string) : string :=
  "Price Comparison for: " +:+ product_name +:+ Str.LF +:+ Str.LF
  +:+ "Best Prices:" +:+ Str.LF.

Definition render_summary (best last : price_record) (count : nat) : string :=
  Str.LF +:+ "Best Deal: " +:+ Str.title (website best) +:+ " at $"
  +:+ format_2f (price best) +:+ Str.LF
  +:+ "Price Range: $" +:+ format_2f (price best) +:+ " - $"
  +:+ format_2f (price last) +:+ Str.LF
  +:+ "Number of stores compared: " +:+ pretty count +:+ Str.LF.

(** The comparison of two records by the key [lambda x: x["price"]]. *)
Definition cheaper (a b : price_record) : bool :=
  float_lt (price a) (price b).

(** [valid_results.sort(key=lambda x: x["price"])] *)
Definition sort_by_price (l : list price_record) : list price_record :=
  list_sort cheaper l.

(** [[r for r in results if r is not None]] *)
Definition valid (results : list (option price_record)) : list price_record :=
  omap id results.

(** The part of [compare_prices] that follows the fetches. *)
Definition report (product_name : string)
    (results : list (option price_record)) : M string :=
  let valid_results := valid results in
  match valid_results with
  | [] => mret ("No prices found for " +:+ product_name)
  | _ :: _ =>
      let valid_results := sort_by_price valid_results in
      let output := render_header product_name in
      let output := output +:+ render_entries 1 valid_results in
      best_price ← lift (list_first valid_results);
      last_price ← lift (list_last valid_results);
      mret (output
            +:+ render_summary best_price last_price (length valid_results))
  end.

(** [compare_prices]: one fetch per source of the registry, in its order.
    Opening and closing the HTTP session is taken not to fail. *)
Definition compare_prices (registry : list (string * config)) (w : world)
    (product_name : string) : M string :=
  try_except
    (results ← gather (map (λ website,
                              fetch_price registry w website product_name)
                           (registry_keys registry));
     report product_name results)
    (λ e, mret ("Error comparing prices: " +:+ exn_str e)).

Definition bullet (site : string) : string := "- " +:+ site.

Definition get_available_websites (registry : list (string * config))
    : M string :=
  mret ("Available websites for price comparison:" +:+ Str.LF
        +:+ Str.join Str.LF (map bullet (registry_keys registry))).

End Program.

(** ** URL encoding, as the specification words it *)

(** The characters [urllib.parse.quote_plus] leaves as they are. *)
Definition unreserved (c : ascii) : bool :=
  let n := Str.code c in
  ((48 <=? n) && (n <=? 57) || (65 <=? n) && (n <=? 90)
   || (97 <=? n) && (n <=? 122)
   || (n =? 45) || (n =? 46) || (n =? 95) || (n =? 126))%N.

Definition hex_digit (n : N) : ascii :=
  Ascii.ascii_of_N (if (n <? 10)%N then 48 + n else 55 + n).

(** ['%'] and the two hexadecimal digits of a byte. *)
Definition percent (byte : N) (rest : string) : string :=
  String "%" (String (hex_digit (byte / 16))
                (String (hex_digit (byte mod 16)) rest)).

(** Percent-/plus-encoding of a name: a space becomes ['+'], an unreserved
    character stays, and each byte of the UTF-8 encoding of any other
    character becomes ['%'] and two hexadecimal digits. *)
Fixpoint quote_plus (s : string) : string :=
  match s with
  | "" => ""
  | String c s' =>
      let n := Str.code c in
      if bool_decide (c = " "%char) then String "+" (quote_plus s')
      else if unreserved c then String c (quote_plus s')
      else if (n <? 128)%N then percent n (quote_plus s')
      else percent (192 + n / 64) (percent (128 + n mod 64) (quote_plus s'))
  end.

(** What [fetch_price] does to a name: each space becomes ['+']. *)
Fixpoint plus_spaces (s : string) : string :=
  match s with
  | "" => ""
  | String c s' =>
      String (if bool_decide (c = " "%char) then "+"%char else c)
             (plus_spaces s')
  end.

Definition brace (c : ascii) : bool :=
  bool_decide (c = "{"%char) || bool_decide (c = "}"%char).

(** ** Selection precedence, as the specification words it *)

(** The selection keys, highest precedence first. *)
Definition selection_keys : list string := ["class"; "id"; "tag"; "attrs"].

(** The first selection key a rule holds. *)
Definition winning_key (d : gmap string value) : option string :=
  List.find (λ k, bool_decide (is_Some (d !! k))) selection_keys.

(** The rule cut down to one of its keys. *)
Definition restrict (k : string) (d : gmap string value) : gmap string value :=
  filter (λ kv, kv.1 = k) d.

(** A rule no branch of [find_element] applies to. *)
Definition malformed (sel : selector) : bool :=
  match sel with
  | SelStr _ => false
  | SelDict d => forallb (λ k, bool_decide (d !! k = None)) selection_keys
  | SelOther _ => true
  end.

(** ** The failures of one fetch, as the specification lists them *)

Inductive failure :=
| NetworkTimeout
| NetworkError (e : exn)
| BadStatus (code : Z)
| AbsentElement
| UnparsablePrice (digits : string).

Section Failures.
Context `{RT : Runtime}.

(** The result and the printed lines of one fetch, read off a run that
    starts with empty output. *)
Definition fetch_outcome (registry : list (string * config)) (w : world)
    (website product_name : string) : option price_record * list string :=
  let '(r, lines) := fetch_price registry w website product_name [] in
  (match r with Ok r => r | Raise _ => None end, lines).

(** The results [gather] hands to the aggregator. *)
Definition fetched (registry : list (string * config)) (w : world)
    (product_name : string) : list (option price_record) :=
  map (λ website, (fetch_outcome registry w website product_name).1)
      (registry_keys registry).

(** How the fetch from a source of configuration [c], requested at the URL
    [u], fails: at the request, at the status, at the body, at the
    extraction or at the price. *)
Inductive fails (c : config) (w : world) (u : string) : failure → Prop :=
| fails_timeout :
    http_get w u (headers c) = Raise TimeoutError →
    fails c w u NetworkTimeout
| fails_network e :
    http_get w u (headers c) = Raise e → e ≠ TimeoutError →
    fails c w u (NetworkError e)
| fails_status resp :
    http_get w u (headers c) = Ok resp → status resp ≠ 200 →
    fails c w u (BadStatus (status resp))
| fails_read_timeout resp :
    http_get w u (headers c) = Ok resp → status resp = 200 →
    response_text resp = Raise TimeoutError →
    fails c w u NetworkTimeout
| fails_read resp e :
    http_get w u (headers c) = Ok resp → status resp = 200 →
    response_text resp = Raise e → e ≠ TimeoutError →
    fails c w u (NetworkError e)
| fails_absent resp html price_element name_element :
    http_get w u (headers c) = Ok resp → status resp = 200 →
    response_text resp = Ok html →
    find_element (BeautifulSoup html) (price_selector c) = Ok price_element →
    find_element (BeautifulSoup html) (name_selector c) = Ok name_element →
    price_element = None ∨ name_element = None →
    fails c w u AbsentElement
| fails_price resp html price_element name_element :
    http_get w u (headers c) = Ok resp → status resp = 200 →
    response_text resp = Ok html →
    find_element (BeautifulSoup html) (price_selector c)
      = Ok (Some price_element) →
    find_element (BeautifulSoup html) (name_selector c)
      = Ok (Some name_element) →
    decimal_literal
      (Str.filter digit_or_point (Str.strip (text price_element))) = None →
    fails c w u
      (UnparsablePrice
         (Str.filter digit_or_point (Str.strip (text price_element)))).

(** The lines [fetch_price] prints on a failure. *)
Definition diagnostic (website : string) (f : failure) : list string :=
  match f with
  | NetworkTimeout => ["Request timed out for " +:+ website]
  | NetworkError e =>
      ["Error fetching from " +:+ website +:+ ": " +:+ exn_str e]
  | BadStatus code =>
      ["Failed to fetch page from " +:+ website
       +:+ ". Status code: " +:+ pretty code]
  | AbsentElement => []
  | UnparsablePrice digits =>
      ["Error fetching from " +:+ website
       +:+ ": could not convert string to float: " +:+ Str.repr digits]
  end.

(** The failures that leave a line in the output. *)
Definition logged (f : failure) : bool :=
  match f with
  | AbsentElement => false
  | _ => true
  end.

End Failures.

(** ** An executable instance *)

(** Exact decimal arithmetic in place of binary floating point, no CSS
    selection, and a parser that knows the pages of a small table.  It runs
    the examples and shows the assumptions made on [float_lt] to be
    satisfiable. *)
Module Exact.

Definition lt (x y : Q) : bool := negb (Qle_bool y x).

(** A non-negative amount in hundredths, rounded half to even. *)
Definition hundredths (q : Q) : Z :=
  let n := Qnum q * 100 in
  let d := Z.pos (Qden q) in
  let f := n / d in
  let r := n mod d in
  if 2 * r <? d then f
  else if d <? 2 * r then f + 1
  else if Z.even f then f else f + 1.

Definition two_decimals (q : Q) : string :=
  let h := hundredths q in
  pretty (h / 100) +:+ "." +:+ pretty (h mod 100 / 10) +:+ pretty (h mod 10).

Definition class_ (c : string) : gmap string attr_value :=
  {[ "class" := AttrList [c] ]}.

(** A few pages, each with the document [html.parser] builds from it. *)
Definition amazon_html : string :=
  "<div><span class='a-size-medium'> Laptop 15 </span><span class='a-price-whole'>$1,234.56 each</span></div>".

Definition amazon_page : soup :=
  [ Tag "div" ∅
      [ Tag "span" (class_ "a-size-medium") [NavigableString " Laptop 15 "];
        Tag "span" (class_ "a-price-whole") [NavigableString "$1,234.56 each"] ] ].

Definition promo_html : string :=
  "<span class='a-size-medium'>Laptop</span><span class='a-price-whole'>Call for price</span>".

Definition promo_page : soup :=
  [ Tag "span" (class_ "a-size-medium") [NavigableString "Laptop"];
    Tag "span" (class_ "a-price-whole") [NavigableString "Call for price"] ].

Definition newegg_html : string :=
  "<a class='item-title'>Laptop 15 (refurbished)</a><li class='price-current'>$249.50</li>".

Definition newegg_page : soup :=
  [ Tag "a" (class_ "item-title") [NavigableString "Laptop 15 (refurbished)"];
    Tag "li" (class_ "price-current") [NavigableString "$249.50"] ].

Definition amazon_299_html : string :=
  "<span class='a-size-medium'>Laptop 15</span><span class='a-price-whole'>$299.00</span>".

Definition amazon_299_page : soup :=
  [ Tag "span" (class_ "a-size-medium") [NavigableString "Laptop 15"];
    Tag "span" (class_ "a-price-whole") [NavigableString "$299.00"] ].

Definition bestbuy_html : string :=
  "<h4 class='promo'>Sponsored</h4><h4 class='sku-title'>Laptop 15</h4><div class='priceView-customer-price'>$199.99</div>".

Definition bestbuy_page : soup :=
  [ Tag "h4" (class_ "promo") [NavigableString "Sponsored"];
    Tag "h4" (class_ "sku-title") [NavigableString "Laptop 15"];
    Tag "div" (class_ "priceView-customer-price") [NavigableString "$199.99"] ].

Definition no_results_html : string :=
  "<p>No results for your search.</p>".

Definition no_results_page : soup :=
  [ Tag "p" ∅ [NavigableString "No results for your search."] ].

Definition pages : list (string * soup) :=
  [ (amazon_html, amazon_page); (promo_html, promo_page);
    (bestbuy_html, bestbuy_page); (newegg_html, newegg_page);
    (amazon_299_html, amazon_299_page); (no_results_html, no_results_page) ].

(** The document of a page of the table, and an empty one for any other
    text. *)
Fixpoint page (table : list (string * soup)) (html : string) : soup :=
  match table with
  | [] => []
  | (h, s) :: table' => if bool_decide (h = html) then s else page table' html
  end.

Global Instance runtime : Runtime := {|
  float := Q;
  float_of_decimal := λ q, q;
  float_lt := lt;
  format_2f := two_decimals;
  select_one := λ _ _, Ok None;
  find_other := λ _ _ _, Ok None;
  BeautifulSoup := page pages;
|}.

(** Every request is answered with status 200 and the given body. *)
Definition serving (html : string) : world :=
  {| http_get := λ _ _, Ok {| status := 200; response_text := Ok html |};
     now_isoformat := λ _, "2024-03-01T12:00:00" |}.

(** Every request is answered with the given result. *)
Definition answering (r : result response) : world :=
  {| http_get := λ _ _, r;
     now_isoformat := λ _, "2024-03-01T12:00:00" |}.

(** Three shops answer with prices 299.00, 199.99 and 249.50. *)
Definition market : world :=
  {| http_get := λ u _,
       Ok {| status := 200;
             response_text :=
               Ok (if String.prefix "https://www.amazon.com" u
                   then amazon_299_html
                   else if String.prefix "https://www.bestbuy.com" u
                   then bestbuy_html else newegg_html) |};
     now_isoformat := λ _, "2024-03-01T12:00:00" |}.

(** One shop answers with a server error, one with a price that does not
    read as a number, one with a listing at 199.99. *)
Definition troubled : world :=
  {| http_get := λ u _,
       Ok (if String.prefix "https://www.newegg.com" u
           then {| status := 500; response_text := Ok "" |}
           else {| status := 200;
                   response_text :=
                     Ok (if String.prefix "https://www.amazon.com" u
                         then promo_html else bestbuy_html) |});
     now_isoformat := λ _, "2024-03-01T12:00:00" |}.

Definition record (site : string) (p : Q) : price_record :=
  {| website := site; name := "Laptop 15"; price := p;
     record_url := "https://" +:+ site; timestamp := "2024-03-01T12:00:00" |}.

End Exact.

(** ** Price text, by its characters *)

(** The decimal point. *)
Definition point (c : ascii) : bool := bool_decide (c = "."%char).

(** The characters of a decimal literal. *)
Definition decimal_or_point (c : ascii) : bool := Str.isdecimal c || point c.

(** ** The client *)

(** [client.py]: the calls to the tools of the server, the analysis of a
    report by a language model, and the menu.  The session is taken to be
    connected where a tool is called, and the answers of the server and of
    the model not to change while the client runs. *)
Module Client.

(** One item of the content of a tool result: a text, or an item of
    another kind, which has no [text]. *)
Inductive content :=
| TextContent (text : string)
| ImageContent.

(** What the client obtains from outside: the connection to the server,
    with the names and descriptions of the tools it lists; the result of a
    tool call, by the name of the tool and its arguments; the tokenizer;
    and the generation of an answer, decoded. *)
Record services := {
  connect : result (list (string * string));
  call_tool : string → option (list (string * string)) → result (list content);
  tokenize : string → result (list Z);
  generate : list Z → result string;
}.

(** [result.content[0].text] *)
Definition first_text (content : list content) : result string :=
  match list_first content with
  | Ok (TextContent text) => Ok text
  | Ok ImageContent =>
      Raise (OtherError "'ImageContent' object has no attribute 'text'")
  | Raise e => Raise e
  end.

Definition compare_prices (sv : services) (product_name : string) : M string :=
  result ← lift (call_tool sv "compare_prices"
                   (Some [("product_name", product_name)]));
  lift (first_text result).

Definition get_available_websites (sv : services) : M string :=
  result ← lift (call_tool sv "get_available_websites" None);
  lift (first_text result).

(** The prompt built around the price data. *)
Definition prompt (price_data : string) : string :=
  "You are a tech shopping assistant. Analyze this price comparison data and provide insights about the best deals, price differences, and shopping recommendations:"
  +:+ Str.LF +:+ Str.LF +:+ price_data +:+ Str.LF +:+ Str.LF
  +:+ "Please provide a concise analysis focusing on:" +:+ Str.LF
  +:+ "1. Best value options" +:+ Str.LF
  +:+ "2. Price differences between stores" +:+ Str.LF
  +:+ "3. Shopping recommendations" +:+ Str.LF
  +:+ "4. Any notable deals or savings" +:+ Str.LF +:+ Str.LF
  +:+ "Analysis:".

Definition get_ai_analysis (sv : services) (price_data : string) : M string :=
  try_except
    (inputs ← lift (tokenize sv (prompt price_data));
     print "Generating analysis...";;
     response ← lift (generate sv inputs);
     mret (Str.strip response))
    (λ e,
       print ("Debug: Exception details: " +:+ exn_str e);;
       mret ("Error getting AI analysis: " +:+ exn_str e)).

Definition get_shopping_recommendation (sv : services)
    (product_name : string) : M string :=
  try_except
    (price_data ← compare_prices sv product_name;
     analysis ← get_ai_analysis sv price_data;
     mret ("Price Comparison:" +:+ Str.LF +:+ price_data +:+ Str.LF +:+ Str.LF
           +:+ "AI Analysis:" +:+ Str.LF +:+ analysis))
    (λ e, mret ("Error getting recommendation: " +:+ exn_str e)).

Fixpoint print_all (lines : list string) : M unit :=
  match lines with
  | [] => mret tt
  | line :: lines' => print line;; print_all lines'
  end.

Definition connect_to_server (sv : services) : M unit :=
  tools ← lift (connect sv);
  print (Str.LF +:+ "Connected to server with tools:");;
  print_all (map (λ tool, "  - " +:+ tool.1 +:+ ": " +:+ tool.2) tools).

(** What a session does at the terminal and with its resources: a call of
    [print], the prompt of a call of [input], the release of the
    connection by [cleanup]. *)
Inductive event :=
| Printed (text : string)
| Prompted (prompt : string)
| Closed.

(** A computation run from an empty output, with what it printed. *)
Definition run {A} (m : M A) : list event * result A :=
  let '(r, out) := m [] in (map Printed out, r).

Definition menu : list event :=
  [ Printed (Str.LF +:+ "Tech Shopping Assistant");
    Printed "1. Compare prices";
    Printed "2. Get AI shopping recommendation";
    Printed "3. View available websites";
    Printed "4. Exit";
    Prompted (Str.LF +:+ "Enter your choice (1-4): ") ].

(** [input] at the end of the input. *)
Definition EOFError : exn := OtherError "EOF when reading a line".

(** The [while True] loop of [main] over the lines typed: what happens at
    the terminal, and whether the loop is left by [break] or by an
    exception. *)
Fixpoint menu_loop (sv : services) (stdin : list string)
    : list event * result unit :=
  match stdin with
  | [] => (menu, Raise EOFError)
  | choice :: typed =>
      if bool_decide (choice = "1") then
        let ask := Prompted (Str.LF +:+ "Enter product name to compare: ") in
        match typed with
        | [] => (menu ++ [ask], Raise EOFError)
        | product_name :: typed' =>
            let say := Printed (Str.LF +:+ "Fetching prices...") in
            match run (compare_prices sv product_name) with
            | (printed, Ok result) =>
                let '(rest, r) := menu_loop sv typed' in
                (menu ++ [ask; say] ++ printed
                 ++ [Printed (Str.LF +:+ "Results:"); Printed result] ++ rest,
                 r)
            | (printed, Raise e) => (menu ++ [ask; say] ++ printed, Raise e)
            end
        end
      else if bool_decide (choice = "2") then
        let ask :=
          Prompted (Str.LF +:+ "Enter product name for AI recommendation: ") in
        match typed with
        | [] => (menu ++ [ask], Raise EOFError)
        | product_name :: typed' =>
            let say :=
              Printed (Str.LF
                       +:+ "Analyzing prices and getting AI recommendation...") in
            match run (get_shopping_recommendation sv product_name) with
            | (printed, Ok result) =>
                let '(rest, r) := menu_loop sv typed' in
                (menu ++ [ask; say] ++ printed
                 ++ [Printed (Str.LF +:+ "Results:"); Printed result] ++ rest,
                 r)
            | (printed, Raise e) => (menu ++ [ask; say] ++ printed, Raise e)
            end
        end
      else if bool_decide (choice = "3") then
        match run (get_available_websites sv) with
        | (printed, Ok websites) =>
            let '(rest, r) := menu_loop sv typed in
            (menu ++ printed
             ++ [Printed (Str.LF +:+ "Available Websites:"); Printed websites]
             ++ rest,
             r)
        | (printed, Raise e) => (menu ++ printed, Raise e)
        end
      else if bool_decide (choice = "4") then (menu, Ok tt)
      else
        let '(rest, r) := menu_loop sv typed in
        (menu ++ [Printed "Invalid choice. Please try again."] ++ rest, r)
  end.

(** [main]: the connection, the loop, the report of an exception, and in
    every case [cleanup], which is taken not to fail. *)
Definition main (sv : services) (stdin : list string) : list event :=
  let '(events, r) :=
    match run (connect_to_server sv) with
    | (printed, Ok _) =>
        let '(rest, r) := menu_loop sv stdin in
        ([Printed "Connecting to price comparison server..."] ++ printed
         ++ [Printed "Connected successfully!"] ++ rest, r)
    | (printed, Raise e) =>
        ([Printed "Connecting to price comparison server..."] ++ printed,
         Raise e)
    end in
  events
  ++ match r with
     | Ok _ => []
     | Raise e => [Printed ("Error: " +:+ exn_str e)]
     end
  ++ [Closed].

(** A server that answers every call with one text, and a model that
    answers every prompt with one text. *)
Definition answering (text response : string) : services :=
  {| connect := Ok [("compare_prices", "Compare prices of a tech product across different websites.")];
     call_tool := λ _ _, Ok [TextContent text];
     tokenize := λ _, Ok [1; 2; 3];
     generate := λ _, Ok response |}.

(** The same server, and a model that fails. *)
Definition without_model (text : string) : services :=
  {| connect := Ok [];
     call_tool := λ _ _, Ok [TextContent text];
     tokenize := λ _, Ok [1; 2; 3];
     generate := λ _, Raise (OtherError "CUDA out of memory") |}.

(** A server that cannot be reached. *)
Definition unreachable : services :=
  {| connect := Raise (OtherError "All connection attempts failed");
     call_tool := λ _ _, Raise (OtherError "Connection closed");
     tokenize := λ _, Ok [];
     generate := λ _, Ok "" |}.

End Client.

(** * Properties *)

(** ** Running computations *)

(** Case analysis on the innermost scrutinee of the goal. *)
Ltac run_step :=
  match goal with
  | |- context [match ?x with _ => _ end] =>
      lazymatch x with
      | context [match _ with _ => _ end] => fail
      | _ => destruct x eqn:?
      end
  end.

Ltac run :=
  cbv [try_except mbind M_bind mret M_ret lift print]; simpl;
  repeat (run_step; simpl); simplify_eq/=;
  rewrite ?app_nil_r; try reflexivity.

Section Fetch.
Context `{RT : Runtime}.
Implicit Types (registry : list (string * config)) (w : world).

(** A fetch never raises, and what it returns and prints does not depend
    on what was printed before. *)
Lemma fetch_price_run registry w website product_name out :
  fetch_price registry w website product_name out
  = (Ok (fetch_outcome registry w website product_name).1,
     out ++ (fetch_outcome registry w website product_name).2).
Proof.
  unfold fetch_outcome, fetch_price. run.
Qed.

Lemma gather_fetch_price registry w product_name (sites : list string) out :
  gather (map (λ website, fetch_price registry w website product_name) sites)
         out
  = (Ok (map (λ website, (fetch_outcome registry w website product_name).1)
             sites),
     out ++ concat
       (map (λ website, (fetch_outcome registry w website product_name).2)
            sites)).
Proof.
  revert out. induction sites as [|site sites IH]; intros out; simpl.
  - by rewrite app_nil_r.
  - unfold mbind, M_bind at 1. rewrite fetch_price_run.
    unfold mbind, M_bind at 1. rewrite IH. by rewrite <-app_assoc.
Qed.

(** On a failure of the taxonomy a fetch returns [None] and prints the
    lines of [diagnostic]. *)
Lemma fetch_price_fails registry w website product_name c u f out :
  registry_lookup registry website = Ok c →
  request_url c product_name = Ok u →
  fails c w u f →
  fetch_price registry w website product_name out
  = (Ok None, out ++ diagnostic website f).
Proof.
  intros Hc Hu Hf. unfold fetch_price.
  cbv [try_except mbind M_bind mret M_ret lift print]. rewrite Hc, Hu.
  destruct Hf as
    [Hget|e Hget He|resp Hget Hst|resp Hget Hst Htxt|resp e Hget Hst Htxt He
    |resp html pe ne Hget Hst Htxt Hpe Hne Habs
    |resp html pe ne Hget Hst Htxt Hpe Hne Hlit]; rewrite Hget; simpl.
  - done.
  - by destruct e.
  - by rewrite bool_decide_eq_false_2.
  - rewrite bool_decide_eq_true_2 by done. by rewrite Htxt.
  - rewrite bool_decide_eq_true_2 by done. rewrite Htxt. by destruct e.
  - rewrite bool_decide_eq_true_2 by done. rewrite Htxt, Hpe, Hne.
    rewrite app_nil_r. destruct Habs as [-> | ->]; [done|by destruct pe].
  - rewrite bool_decide_eq_true_2 by done. rewrite Htxt, Hpe, Hne.
    unfold float_of_str. by rewrite Hlit.
Qed.

(** C2, as amended: whatever the registry, the world, the source and the
    product, [fetch_price] returns without raising; on each failure of the
    taxonomy (timeout, network error, status other than 200, absent price
    or name element, unparsable price text) it returns [None], and it prints
    one diagnostic line except for an absent element, for which it prints
    nothing. *)
Theorem fetch_price_failure registry w website product_name out :
  (∃ r lines,
     fetch_price registry w website product_name out = (Ok r, out ++ lines))
  ∧ ∀ c u f,
      registry_lookup registry website = Ok c →
      request_url c product_name = Ok u →
      fails c w u f →
      fetch_price registry w website product_name out
        = (Ok None, out ++ diagnostic website f)
      ∧ length (diagnostic website f) = (if logged f then 1 else 0)%nat.
Proof.
  split; [rewrite fetch_price_run; eauto|].
  intros c u f Hc Hu Hf. split; [|by destruct f].
  by eapply fetch_price_fails.
Qed.

End Fetch.

(** ** The extractor *)

Section Extractor.
Context `{RT : Runtime}.

Lemma restrict_lookup_eq k (d : gmap string value) :
  restrict k d !! k = d !! k.
Proof.
  unfold restrict. apply option_eq. intros v.
  rewrite map_lookup_filter_Some. simpl. tauto.
Qed.

Lemma restrict_lookup_ne k k' (d : gmap string value) :
  k' ≠ k → restrict k d !! k' = None.
Proof.
  intros Hne. unfold restrict. apply map_lookup_filter_None.
  right. intros v _ Heq. by apply Hne.
Qed.

(** C4: for every document and every dictionary rule, [find_element]
    evaluates one selection strategy, that of the first key present in the
    order class, id, tag, attrs: the result is the one the rule cut down to
    that key alone gives, and there is no match when none of the four keys
    is present. *)
Theorem find_element_precedence (s : soup) (d : gmap string value) :
  find_element s (SelDict d)
  = match winning_key d with
    | Some k => find_element s (SelDict (restrict k d))
    | None => Ok None
    end.
Proof.
  unfold winning_key, selection_keys. simpl.
  destruct (d !! "class") as [v|] eqn:Hclass; simpl.
  { by rewrite restrict_lookup_eq, Hclass. }
  destruct (d !! "id") as [v|] eqn:Hid; simpl.
  { rewrite (restrict_lookup_ne "id" "class") by done.
    by rewrite restrict_lookup_eq, Hid. }
  destruct (d !! "tag") as [v|] eqn:Htag; simpl.
  { rewrite (restrict_lookup_ne "tag" "class") by done.
    rewrite (restrict_lookup_ne "tag" "id") by done.
    by rewrite restrict_lookup_eq, Htag. }
  destruct (d !! "attrs") as [v|] eqn:Hattrs; simpl; [|done].
  rewrite (restrict_lookup_ne "attrs" "class") by done.
  rewrite (restrict_lookup_ne "attrs" "id") by done.
  rewrite (restrict_lookup_ne "attrs" "tag") by done.
  by rewrite restrict_lookup_eq, Hattrs.
Qed.

(** C3, at a failing input: on a page whose first [h4] has the class
    [promo], the name rule of the [bestbuy] source, which asks for the tag
    [h4] and the class [sku-title], returns that first [h4], a node on
    which the attribute constraint does not hold. *)
Theorem find_element_tag_ignores_attrs :
  find_element Exact.bestbuy_page (name_selector bestbuy)
  = Ok (Some (Tag "h4" (Exact.class_ "promo") [NavigableString "Sponsored"]))
  ∧ search_tag (Some "h4") {[ "class" := "sku-title" ]}
      (Tag "h4" (Exact.class_ "promo") [NavigableString "Sponsored"]) = false
  ∧ find (Some "h4") {[ "class" := "sku-title" ]} Exact.bestbuy_page
    = Some (Tag "h4" (Exact.class_ "sku-title") [NavigableString "Laptop 15"]).
Proof. by vm_compute. Qed.

(** C10: for every document, a selector that is neither a string nor a
    dictionary, or a dictionary with none of the keys class, id, tag and
    attrs, makes [find_element] return [None] without raising; and a source
    whose price rule is such a selector is answered with [None] and no
    printed line once its page is read. *)
Theorem find_element_malformed (s : soup) (sel : selector) :
  malformed sel = true →
  find_element s sel = Ok None
  ∧ ∀ registry w website product_name c u resp html name_element out,
      registry_lookup registry website = Ok c →
      request_url c product_name = Ok u →
      http_get w u (headers c) = Ok resp → status resp = 200 →
      response_text resp = Ok html →
      price_selector c = sel →
      find_element (BeautifulSoup html) (name_selector c) = Ok name_element →
      fetch_price registry w website product_name out = (Ok None, out).
Proof.
  intros Hsel.
  assert (∀ s', find_element s' sel = Ok None) as Hfind.
  { intros s'. destruct sel as [x|d|o]; [done| |done].
    simpl in Hsel. rewrite !andb_true_iff, !bool_decide_eq_true in Hsel.
    destruct Hsel as (Hclass & Hid & Htag & Hattrs & _).
    simpl. by rewrite Hclass, Hid, Htag, Hattrs. }
  split; [done|].
  intros registry w website product_name c u resp html ne out
    Hc Hu Hget Hst Htxt <- Hne.
  unfold fetch_price.
  cbv [try_except mbind M_bind mret M_ret lift print].
  rewrite Hc, Hu, Hget. simpl.
  rewrite bool_decide_eq_true_2 by done. by rewrite Htxt, Hfind, Hne.
Qed.

End Extractor.

(** ** Price text *)

Lemma filter_keeps p (s : string) : Str.forallb p (Str.filter p s) = true.
Proof.
  induction s as [|c s IH]; simpl; [done|].
  destruct (p c) eqn:Hc; simpl; [by rewrite Hc|done].
Qed.

Lemma filter_no_digit (s : string) :
  Str.forallb (λ c, negb (Str.isdigit c)) s = true →
  Str.forallb (λ c, bool_decide (c = "."%char))
    (Str.filter digit_or_point s) = true.
Proof.
  induction s as [|c s IH]; simpl; [done|].
  rewrite andb_true_iff. intros [Hc Hs]. unfold digit_or_point at 1.
  apply negb_true_iff in Hc. rewrite Hc. simpl.
  destruct (bool_decide (c = "."%char)) eqn:Hp; simpl; [rewrite Hp|]; auto.
Qed.

Lemma points_not_literal (t : string) :
  Str.forallb (λ c, bool_decide (c = "."%char)) t = true →
  decimal_literal t = None.
Proof.
  destruct t as [|c t]; [done|]. simpl.
  rewrite andb_true_iff, bool_decide_eq_true. intros [-> Ht].
  unfold decimal_literal. simpl.
  destruct t as [|c' t]; [done|]. simpl in Ht.
  apply andb_true_iff in Ht as [Hc' _]. apply bool_decide_eq_true in Hc'.
  by subst c'.
Qed.

(** ** Request URLs *)

Lemma replace_space (s : string) : Str.replace " " "+" s = plus_spaces s.
Proof.
  unfold Str.replace. induction s as [|c s IH]; [done|].
  cbn -[ascii_dec]. rewrite IH.
  destruct (ascii_dec " " c) as [<-|Hc]; [by destruct s|].
  by rewrite bool_decide_eq_false_2 by (by intros ->).
Qed.

Lemma str_format_go_char arg used c t :
  brace c = false →
  str_format_go arg used (String c t)
  = match str_format_go arg used t with
    | Ok r => Ok (String c r)
    | Raise e => Raise e
    end.
Proof.
  intros Hc.
  destruct c as [[] [] [] [] [] [] [] []]; try done.
Qed.

Lemma str_format_go_plain arg used t :
  Str.forallb (λ c, negb (brace c)) t = true →
  str_format_go arg used t = Ok t.
Proof.
  induction t as [|c t IH]; [done|]. simpl Str.forallb.
  rewrite andb_true_iff, negb_true_iff. intros [Hc Ht].
  by rewrite str_format_go_char, IH.
Qed.

Lemma str_format_slot pre post arg :
  Str.forallb (λ c, negb (brace c)) pre = true →
  Str.forallb (λ c, negb (brace c)) post = true →
  str_format (pre +:+ "{}" +:+ post) arg = Ok (pre +:+ arg +:+ post).
Proof.
  intros Hpre Hpost. unfold str_format.
  induction pre as [|c pre IH].
  - simpl. by rewrite str_format_go_plain.
  - simpl Str.forallb in Hpre.
    apply andb_true_iff in Hpre as [Hc Hpre]. apply negb_true_iff in Hc.
    change (String c pre +:+ "{}" +:+ post)
      with (String c (pre +:+ "{}" +:+ post)).
    by rewrite str_format_go_char, IH.
Qed.

Lemma plus_spaces_length (s : string) :
  String.length (plus_spaces s) = String.length s.
Proof. induction s as [|c s IH]; simpl; [done|by rewrite IH]. Qed.

Lemma quote_plus_length (s : string) :
  (String.length s ≤ String.length (quote_plus s))%nat.
Proof.
  induction s as [|c s IH]; simpl; [done|].
  repeat case_match; simpl; lia.
Qed.

(** Replacing spaces is URL encoding on the names made of unreserved
    characters and spaces, and on no other name. *)
Lemma plus_spaces_quote (s : string) :
  plus_spaces s = quote_plus s
  ↔ Str.forallb (λ c, unreserved c || bool_decide (c = " "%char)) s = true.
Proof.
  induction s as [|c s IH]; simpl; [done|].
  rewrite andb_true_iff, <-IH.
  destruct (bool_decide (c = " "%char)) eqn:Hsp.
  { rewrite orb_true_r. split; [intros [= ?]|intros [_ ->]]; done. }
  rewrite orb_false_r. destruct (unreserved c) eqn:Hc.
  { split; [intros [= ?]|intros [_ ->]]; done. }
  split; [|by intros []].
  pose proof (quote_plus_length s) as Hlen.
  pose proof (plus_spaces_length s) as Hlen'.
  unfold percent. case_match; intros [= _ Htail];
    apply (f_equal String.length) in Htail; simpl in Htail; lia.
Qed.

(** C7, as amended: when the template of a source is literal text around
    one slot, the request URL is the template with the slot filled by the
    product name in which each space is replaced by a plus sign; other
    characters are sent as they are, so that the slot holds the URL-encoded
    name exactly when the name is made of unreserved characters and
    spaces. *)
Theorem request_url_plus (c : config) (pre post product_name : string) :
  url c = pre +:+ "{}" +:+ post →
  Str.forallb (λ ch, negb (brace ch)) pre = true →
  Str.forallb (λ ch, negb (brace ch)) post = true →
  request_url c product_name
    = Ok (pre +:+ plus_spaces product_name +:+ post)
  ∧ (plus_spaces product_name = quote_plus product_name
     ↔ Str.forallb (λ ch, unreserved ch || bool_decide (ch = " "%char))
         product_name = true).
Proof.
  intros Hurl Hpre Hpost. unfold request_url.
  rewrite Hurl, replace_space, str_format_slot by done.
  split; [done|]. apply plus_spaces_quote.
Qed.

(** ** Sorting *)

Section Sort.
Context {A : Type} (lt : A → A → bool).

(** [lt] is a strict weak order: it is asymmetric, and an element below
    another is below, or has below it, any third one. *)
Hypothesis lt_asym : ∀ x y, lt x y = true → lt y x = false.
Hypothesis lt_negtrans :
  ∀ x y z, lt x z = true → lt x y = true ∨ lt y z = true.

Lemma not_above_trans a b c :
  not_above lt a b → not_above lt b c → not_above lt a c.
Proof using lt_negtrans.
  unfold not_above. intros Hab Hbc.
  destruct (lt c a) eqn:Hca; [|done].
  destruct (lt_negtrans c b a Hca) as [H|H]; congruence.
Qed.

Lemma sort_insert_perm x (l : list A) : sort_insert lt x l ≡ₚ x :: l.
Proof using Type.
  induction l as [|y l IH]; simpl; [done|].
  destruct (lt y x); [|done]. rewrite IH. apply Permutation_swap.
Qed.

Lemma list_sort_perm (l : list A) : list_sort lt l ≡ₚ l.
Proof using Type.
  induction l as [|x l IH]; simpl; [done|].
  by rewrite sort_insert_perm, IH.
Qed.

Lemma sort_insert_sorted x (l : list A) :
  StronglySorted (not_above lt) l → StronglySorted (not_above lt) (sort_insert lt x l).
Proof using lt_asym lt_negtrans.
  induction 1 as [|y l Hl IH Hy]; simpl.
  - repeat constructor.
  - destruct (lt y x) eqn:Hyx.
    + constructor; [done|]. rewrite sort_insert_perm.
      constructor; [by apply lt_asym|done].
    + constructor; [by constructor|].
      constructor; [done|].
      eapply Forall_impl; [exact Hy|]. intros z Hz.
      by apply not_above_trans with y.
Qed.

Lemma list_sort_sorted (l : list A) :
  StronglySorted (not_above lt) (list_sort lt l).
Proof using lt_asym lt_negtrans.
  induction l as [|x l IH]; simpl; [constructor|].
  by apply sort_insert_sorted.
Qed.

(** An element passes only elements it is not equivalent to, so that the
    elements equivalent to any [z] keep their order. *)
Lemma sort_insert_stable z x (l : list A) :
  List.filter (equivalent lt z) (sort_insert lt x l)
  = List.filter (equivalent lt z) (x :: l).
Proof using lt_negtrans.
  induction l as [|y l IH]; [done|].
  simpl sort_insert. destruct (lt y x) eqn:Hyx; [|done].
  change (List.filter (equivalent lt z) (y :: sort_insert lt x l))
    with (if equivalent lt z y
          then y :: List.filter (equivalent lt z) (sort_insert lt x l)
          else List.filter (equivalent lt z) (sort_insert lt x l)).
  rewrite IH. simpl.
  destruct (equivalent lt z y) eqn:Hzy, (equivalent lt z x) eqn:Hzx; try done.
  unfold equivalent in Hzy, Hzx.
  rewrite andb_true_iff, !negb_true_iff in Hzy, Hzx.
  destruct Hzy as [Hzy1 Hzy2], Hzx as [Hzx1 Hzx2].
  destruct (lt_negtrans y z x Hyx); congruence.
Qed.

Lemma list_sort_stable z (l : list A) :
  List.filter (equivalent lt z) (list_sort lt l) = List.filter (equivalent lt z) l.
Proof using lt_negtrans.
  induction l as [|x l IH]; [done|].
  simpl list_sort. rewrite sort_insert_stable. simpl. by rewrite IH.
Qed.

End Sort.

(** ** The aggregator *)

Section Aggregator.
Context `{RT : Runtime}.
Implicit Types (registry : list (string * config)) (w : world).

(** A record carries the identifier of the source it was fetched from. *)
Lemma fetch_outcome_website registry w site product_name r :
  (fetch_outcome registry w site product_name).1 = Some r → website r = site.
Proof.
  unfold fetch_outcome, fetch_price. run; intros ?; by simplify_eq/=.
Qed.

Lemma valid_websites registry w product_name (sites : list string) :
  sublist
    (map website
       (valid (map (λ site, (fetch_outcome registry w site product_name).1)
                   sites)))
    sites.
Proof.
  induction sites as [|site sites IH]; simpl; [constructor|].
  unfold valid in *. simpl.
  destruct (fetch_outcome registry w site product_name).1 as [r|] eqn:Hr;
    simpl.
  - rewrite (fetch_outcome_website _ _ _ _ _ Hr). by constructor.
  - by constructor.
Qed.

Lemma compare_prices_run registry w product_name out :
  compare_prices registry w product_name out
  = match report product_name (fetched registry w product_name)
            (out ++ concat
               (map (λ site, (fetch_outcome registry w site product_name).2)
                    (registry_keys registry))) with
    | (Ok text, out') => (Ok text, out')
    | (Raise e, out') => (Ok ("Error comparing prices: " +:+ exn_str e), out')
    end.
Proof.
  unfold compare_prices, try_except.
  unfold mbind, M_bind at 1. by rewrite gather_fetch_price.
Qed.

(** C6: for every product name, when no source yields a record,
    [compare_prices] returns the string [No prices found for] followed by
    the product name, and raises nothing. *)
Theorem compare_prices_no_prices registry w product_name out :
  valid (fetched registry w product_name) = [] →
  ∃ lines,
    compare_prices registry w product_name out
    = (Ok ("No prices found for " +:+ product_name), out ++ lines).
Proof.
  intros Hnone. rewrite compare_prices_run. unfold report.
  rewrite Hnone. simpl. eauto.
Qed.

(** The numbered list is the concatenation of one entry per record, the
    entries being numbered from [i] on. *)
Lemma render_entries_imap (i : nat) (l : list price_record) :
  render_entries i l
  = foldr String.append "" (imap (λ k r, render_entry (i + k) r) l).
Proof.
  revert i. induction l as [|r l IH]; intros i; [done|].
  cbn [render_entries imap foldr]. rewrite Nat.add_0_r. f_equal.
  rewrite IH. f_equal. apply imap_ext. intros k x _. simpl.
  f_equal. lia.
Qed.

(** C1: when the source identifiers are ASCII, [<] on prices is a strict
    weak order, as it is on the numbers [float] returns, and at least one
    source yields a record, [compare_prices] returns the header, one
    numbered entry per record and the summary.  The entries list the
    records by ascending price, records of equal price staying in the order
    of the registry; the Best Deal line names the source and the price of
    the first record, which no record undercuts; the Price Range line shows
    the prices of the first and of the last record; the count line gives
    the number of records. *)
Theorem compare_prices_ranking registry w product_name out :
  Forall (λ site, Str.forallb (λ c, (Ascii.N_of_ascii c <? 128)%N) site = true)
    (map fst registry) →
  (∀ x y, float_lt x y = true → float_lt y x = false) →
  (∀ x y z, float_lt x z = true → float_lt x y = true ∨ float_lt y z = true) →
  valid (fetched registry w product_name) ≠ [] →
  ∃ ranked best worst lines,
    compare_prices registry w product_name out
    = (Ok ((("Price Comparison for: " +:+ product_name +:+ Str.LF +:+ Str.LF
             +:+ "Best Prices:" +:+ Str.LF)
            +:+ foldr String.append ""
                  (imap (λ i r,
                           Str.LF +:+ pretty (S i) +:+ ". "
                           +:+ Str.title (website r) +:+ ":" +:+ Str.LF
                           +:+ "   Product: " +:+ name r +:+ Str.LF
                           +:+ "   Price: $" +:+ format_2f (price r) +:+ Str.LF
                           +:+ "   URL: " +:+ record_url r +:+ Str.LF)
                        ranked))
           +:+ Str.LF +:+ "Best Deal: " +:+ Str.title (website best)
           +:+ " at $" +:+ format_2f (price best) +:+ Str.LF
           +:+ "Price Range: $" +:+ format_2f (price best) +:+ " - $"
           +:+ format_2f (price worst) +:+ Str.LF
           +:+ "Number of stores compared: "
           +:+ pretty (length (valid (fetched registry w product_name)))
           +:+ Str.LF),
       out ++ lines)
    ∧ ranked ≡ₚ valid (fetched registry w product_name)
    ∧ StronglySorted (λ a b, float_lt (price b) (price a) = false) ranked
    ∧ (∀ z : price_record,
         List.filter (λ r, negb (float_lt (price z) (price r))
                           && negb (float_lt (price r) (price z))) ranked
         = List.filter (λ r, negb (float_lt (price z) (price r))
                             && negb (float_lt (price r) (price z)))
             (valid (fetched registry w product_name)))
    ∧ head ranked = Some best ∧ last ranked = Some worst
    ∧ Forall (λ r, float_lt (price r) (price best) = false)
        (valid (fetched registry w product_name))
    ∧ sublist (map website (valid (fetched registry w product_name)))
        (map fst registry).
Proof.
  intros _ Hasym Hneg Hsome.
  set (records := valid (fetched registry w product_name)) in *.
  set (ranked := sort_by_price records).
  assert (∀ a b, cheaper a b = true → cheaper b a = false) as Hasym'
    by (intros a b; apply Hasym).
  assert (∀ a b c, cheaper a c = true →
                   cheaper a b = true ∨ cheaper b c = true) as Hneg'
    by (intros a b c; apply Hneg).
  assert (ranked ≡ₚ records) as Hperm by apply list_sort_perm.
  assert (StronglySorted (not_above cheaper) ranked) as Hsorted
    by by apply list_sort_sorted.
  assert (∀ z, List.filter (equivalent cheaper z) ranked
               = List.filter (equivalent cheaper z) records) as Hstable
    by (intros z; by apply list_sort_stable).
  destruct ranked as [|best rest] eqn:Hranked.
  { by apply Permutation_nil_l in Hperm. }
  destruct (last (best :: rest)) as [worst|] eqn:Hlast;
    [|by apply last_None in Hlast].
  exists (best :: rest), best, worst. eexists. split_and!.
  - rewrite compare_prices_run. unfold report. fold records.
    destruct records as [|r records'] eqn:Hrecords; [done|].
    fold ranked. rewrite Hranked. cbv [mbind M_bind lift mret M_ret].
    simpl list_first. unfold list_last. rewrite Hlast.
    rewrite <-(Permutation_length Hperm).
    rewrite render_entries_imap. reflexivity.
  - done.
  - exact Hsorted.
  - exact Hstable.
  - done.
  - done.
  - rewrite <-Hperm. apply StronglySorted_inv in Hsorted as [_ Hbest].
    constructor; [|exact Hbest]. 
    destruct (float_lt (price best) (price best)) eqn:Hbb; [|done].
    by rewrite (Hasym _ _ Hbb) in Hbb.
  - apply valid_websites.
Qed.

(** C8: [get_available_websites] returns, under its heading, the source
    identifiers as hyphen-bulleted lines joined by newlines, in the order
    of the registry; it prints nothing and raises nothing, and a second
    call returns the same text; for the registry of the program the lines
    are [- amazon], [- bestbuy] and [- newegg]. *)
Theorem get_available_websites_listing registry out :
  get_available_websites registry out
  = (Ok ("Available websites for price comparison:" +:+ Str.LF
         +:+ Str.join Str.LF (map bullet (map fst registry))), out)
  ∧ (first ← get_available_websites registry;
     second ← get_available_websites registry;
     mret (bool_decide (first = second))) out = (Ok true, out)
  ∧ get_available_websites WEBSITES out
    = (Ok ("Available websites for price comparison:" +:+ Str.LF
           +:+ "- amazon" +:+ Str.LF +:+ "- bestbuy" +:+ Str.LF
           +:+ "- newegg"), out).
Proof.
  split; [done|]. split; [|done].
  cbv [get_available_websites mbind M_bind mret M_ret].
  by rewrite bool_decide_eq_true_2.
Qed.

End Aggregator.

(** ** The executable instance *)

(** Closes an equation between closed terms by evaluating both sides. *)
Ltac evaluate :=
  lazymatch goal with
  | |- ?x = ?y => exact (@eq_refl _ y <: x = y)
  end.

Lemma exact_lt_spec (x y : Q) : Exact.lt x y = true ↔ (x < y)%Q.
Proof.
  unfold Exact.lt. rewrite negb_true_iff, <-not_true_iff_false, Qle_bool_iff.
  split; [apply Qnot_le_lt|apply Qlt_not_le].
Qed.

Lemma exact_lt_asym (x y : float) : float_lt x y = true → float_lt y x = false.
Proof.
  change (Exact.lt x y = true → Exact.lt y x = false).
  rewrite exact_lt_spec, <-not_true_iff_false, exact_lt_spec.
  intros Hxy Hyx. exact (Qlt_irrefl x (Qlt_trans _ _ _ Hxy Hyx)).
Qed.

Lemma exact_lt_negtrans (x y z : float) :
  float_lt x z = true → float_lt x y = true ∨ float_lt y z = true.
Proof.
  change (Exact.lt x z = true → Exact.lt x y = true ∨ Exact.lt y z = true).
  rewrite !exact_lt_spec. intros Hxz.
  destruct (Qlt_le_dec x y) as [Hxy|Hyx]; [by left|right].
  by apply Qle_lt_trans with x.
Qed.

(** The report for three shops that answer 299.00, 199.99 and 249.50. *)
Example compare_prices_market :
  compare_prices WEBSITES Exact.market "laptop" []
  = (Ok ("Price Comparison for: laptop" +:+ Str.LF +:+ Str.LF
         +:+ "Best Prices:" +:+ Str.LF
         +:+ Str.LF +:+ "1. Bestbuy:" +:+ Str.LF
         +:+ "   Product: Sponsored" +:+ Str.LF
         +:+ "   Price: $199.99" +:+ Str.LF
         +:+ "   URL: https://www.bestbuy.com/site/searchpage.jsp?st=laptop"
         +:+ Str.LF
         +:+ Str.LF +:+ "2. Newegg:" +:+ Str.LF
         +:+ "   Product: Laptop 15 (refurbished)" +:+ Str.LF
         +:+ "   Price: $249.50" +:+ Str.LF
         +:+ "   URL: https://www.newegg.com/p/pl?d=laptop" +:+ Str.LF
         +:+ Str.LF +:+ "3. Amazon:" +:+ Str.LF
         +:+ "   Product: Laptop 15" +:+ Str.LF
         +:+ "   Price: $299.00" +:+ Str.LF
         +:+ "   URL: https://www.amazon.com/s?k=laptop" +:+ Str.LF
         +:+ Str.LF +:+ "Best Deal: Bestbuy at $199.99" +:+ Str.LF
         +:+ "Price Range: $199.99 - $299.00" +:+ Str.LF
         +:+ "Number of stores compared: 3" +:+ Str.LF),
     []).
Proof. evaluate. Qed.

(** Records of equal price stay in the order of the registry. *)
Example sort_by_price_ties :
  map website
    (sort_by_price [Exact.record "amazon" 5; Exact.record "bestbuy" 3;
                    Exact.record "newegg" 5; Exact.record "ebay" 3])
  = ["bestbuy"; "ebay"; "amazon"; "newegg"].
Proof. evaluate. Qed.

(** ** Instances of the theorems *)

Lemma compare_prices_ranking_witness :
  valid (fetched WEBSITES Exact.market "laptop") ≠ []
  ∧ ∃ ranked best,
      head ranked = Some best
      ∧ ranked ≡ₚ valid (fetched WEBSITES Exact.market "laptop")
      ∧ StronglySorted (λ a b, float_lt (price b) (price a) = false) ranked
      ∧ Forall (λ r, float_lt (price r) (price best) = false)
          (valid (fetched WEBSITES Exact.market "laptop")).
Proof.
  assert (valid (fetched WEBSITES Exact.market "laptop") ≠ []) as Hsome.
  { intros H. apply (f_equal length) in H. vm_compute in H. discriminate. }
  split; [exact Hsome|].
  assert (Forall (λ site, Str.forallb (λ c, (Ascii.N_of_ascii c <? 128)%N) site
                          = true) (map fst WEBSITES)) as Hascii
    by (repeat constructor).
  destruct (compare_prices_ranking WEBSITES Exact.market "laptop" []
              Hascii exact_lt_asym exact_lt_negtrans Hsome)
    as (ranked & best & worst & lines & _ & Hperm & Hsorted & _ & Hbest & _
        & Hmin & _).
  exists ranked, best. by split_and!.
Defined.

Lemma fetch_price_failure_witness :
  fetch_price WEBSITES (Exact.answering (Raise TimeoutError)) "amazon"
    "gaming laptop" []
  = (Ok None, ["Request timed out for amazon"]).
Proof.
  refine (proj1 (proj2 (fetch_price_failure WEBSITES
                          (Exact.answering (Raise TimeoutError)) "amazon"
                          "gaming laptop" [])
                   amazon "https://www.amazon.com/s?k=gaming+laptop"
                   NetworkTimeout _ _ _)).
  - evaluate.
  - evaluate.
  - apply fails_timeout. evaluate.
Defined.

(** C2, where the claim fails: the page answered has no element of the
    class the [amazon] price rule asks for; the fetch returns [None] and the
    output stays empty. *)
Lemma fetch_price_absent_prints_nothing :
  find_element (BeautifulSoup Exact.no_results_html) (price_selector amazon)
    = Ok None
  ∧ fetch_price WEBSITES (Exact.serving Exact.no_results_html) "amazon"
      "gaming laptop" [] = (Ok None, []).
Proof. split; evaluate. Qed.

Lemma compare_prices_no_prices_witness :
  valid (fetched WEBSITES (Exact.answering (Raise TimeoutError)) "laptop") = []
  ∧ ∃ lines,
      compare_prices WEBSITES (Exact.answering (Raise TimeoutError))
        "laptop" []
      = (Ok "No prices found for laptop", [] ++ lines).
Proof.
  split; [evaluate|].
  apply (compare_prices_no_prices WEBSITES
           (Exact.answering (Raise TimeoutError)) "laptop" []).
  evaluate.
Defined.

Lemma request_url_plus_witness :
  request_url amazon "gaming laptop"
  = Ok "https://www.amazon.com/s?k=gaming+laptop".
Proof.
  apply (request_url_plus amazon "https://www.amazon.com/s?k=" ""
           "gaming laptop"); evaluate.
Defined.

(** C7, where the claim fails: the ampersand of a product name reaches the
    URL as it is, where URL encoding writes [%26]. *)
Lemma request_url_keeps_ampersand :
  request_url amazon "AT&T phone"
  = Ok "https://www.amazon.com/s?k=AT&T+phone"
  ∧ str_format (url amazon) (quote_plus "AT&T phone")
    = Ok "https://www.amazon.com/s?k=AT%26T+phone"
  ∧ request_url amazon "AT&T phone"
    ≠ str_format (url amazon) (quote_plus "AT&T phone").
Proof. split; [evaluate|]. split; [evaluate|]. vm_compute. discriminate. Qed.

Lemma find_element_malformed_witness :
  find_element Exact.amazon_page
    (SelDict {[ "css" := VStr "span.a-price-whole" ]}) = Ok None.
Proof.
  apply (find_element_malformed Exact.amazon_page
           (SelDict {[ "css" := VStr "span.a-price-whole" ]})).
  evaluate.
Defined.

(** ** More runs *)

(** The price text of the page is stripped of all but digits and points
    before it is read; the name is trimmed. *)
Example fetch_price_amazon :
  fetch_price WEBSITES (Exact.serving Exact.amazon_html) "amazon"
    "gaming laptop" []
  = (Ok (Some {| website := "amazon"; name := "Laptop 15";
                 price := Qred (123456 # 100);
                 record_url := "https://www.amazon.com/s?k=gaming+laptop";
                 timestamp := "2024-03-01T12:00:00" |}), []).
Proof. evaluate. Qed.

(** A superscript two is a digit for [isdigit] and is kept by the filter,
    but [float] does not read it. *)
Example float_of_str_superscript :
  float_of_str (Str.filter digit_or_point ("5" +:+ String "178" "" +:+ " m"))
  = Raise (ValueError ("could not convert string to float: '5"
                       +:+ String "178" "" +:+ "'")).
Proof. evaluate. Qed.

(** One source answers with status 500, one with a price that does not
    read as a number, one with a listing at 199.99: the report holds that
    one record. *)
Example compare_prices_troubled :
  map (λ r, (website r, Exact.two_decimals (price r)))
      (valid (fetched WEBSITES Exact.troubled "laptop"))
  = [("bestbuy", "199.99")]
  ∧ (compare_prices WEBSITES Exact.troubled "laptop" []).2
    = ["Error fetching from amazon: could not convert string to float: ''";
       "Failed to fetch page from newegg. Status code: 500"].
Proof. split; evaluate. Qed.

(** * Further properties of the server *)

(** ** Strings *)

Lemma filter_app p (a b : string) :
  Str.filter p (a +:+ b) = Str.filter p a +:+ Str.filter p b.
Proof.
  induction a as [|c a IH]; simpl; [done|].
  destruct (p c); simpl; by rewrite IH.
Qed.

Lemma isspace_not_digit_or_point (c : ascii) :
  Str.isspace c = true → digit_or_point c = false.
Proof. destruct c as [[] [] [] [] [] [] [] []]; by vm_compute. Qed.

Lemma filter_lstrip p (s : string) :
  (∀ c, Str.isspace c = true → p c = false) →
  Str.filter p (Str.lstrip s) = Str.filter p s.
Proof.
  intros Hp. induction s as [|c s IH]; simpl; [done|].
  destruct (Str.isspace c) eqn:Hc; [|done]. by rewrite (Hp c Hc).
Qed.

Lemma filter_rstrip p (s : string) :
  (∀ c, Str.isspace c = true → p c = false) →
  Str.filter p (Str.rstrip s) = Str.filter p s.
Proof.
  intros Hp. induction s as [|c s IH]; simpl; [done|].
  destruct (Str.rstrip s) as [|c' t] eqn:Ht.
  - simpl in IH. rewrite <-IH.
    destruct (Str.isspace c) eqn:Hc; simpl; [by rewrite (Hp c Hc)|].
    by destruct (p c).
  - simpl. rewrite <-IH. simpl. done.
Qed.

Lemma filter_strip p (s : string) :
  (∀ c, Str.isspace c = true → p c = false) →
  Str.filter p (Str.strip s) = Str.filter p s.
Proof.
  intros Hp. unfold Str.strip. by rewrite filter_rstrip, filter_lstrip.
Qed.

Lemma lstrip_head (s : string) c t :
  Str.lstrip s = String c t → Str.isspace c = false.
Proof.
  induction s as [|c' s IH]; simpl; [done|].
  destruct (Str.isspace c') eqn:Hc'; [done|]. by intros [= <- _].
Qed.

Lemma rstrip_head (s : string) c t :
  Str.rstrip s = String c t → ∃ s', s = String c s'.
Proof.
  destruct s as [|c' s]; simpl; [done|].
  destruct (Str.rstrip s); [destruct (Str.isspace c')|]; intros [= <- _]; eauto.
Qed.

Lemma rstrip_last (s : string) :
  Str.rstrip s = ""
  ∨ ∃ t c, Str.rstrip s = t +:+ String c "" ∧ Str.isspace c = false.
Proof.
  induction s as [|c s IH]; simpl; [by left|].
  destruct (Str.rstrip s) as [|c' t] eqn:Ht.
  - destruct (Str.isspace c) eqn:Hc; [by left|].
    right. by exists "", c.
  - right. destruct IH as [|(t' & d & Ht' & Hd)]; [done|].
    exists (String c t'), d. by rewrite Ht'.
Qed.

Lemma strip_head s c t : Str.strip s = String c t → Str.isspace c = false.
Proof.
  unfold Str.strip. intros H.
  destruct (rstrip_head _ _ _ H) as [s' Hs']. by eapply lstrip_head.
Qed.

Lemma strip_last s t c :
  Str.strip s = t +:+ String c "" → Str.isspace c = false.
Proof.
  unfold Str.strip. intros H.
  destruct (rstrip_last (Str.lstrip s)) as [Hnil|(t' & d & Ht' & Hd)].
  - rewrite Hnil in H. by destruct t.
  - rewrite Ht' in H. clear Ht'. revert t' H.
    induction t as [|a t IH]; intros [|a' t']; simpl; intros [= ]; subst;
      try done.
    + by destruct t'.
    + by destruct t.
    + eauto.
Qed.

(** ** Price text, further *)


Lemma forallb_app p (a b : string) :
  Str.forallb p (a +:+ b) = Str.forallb p a && Str.forallb p b.
Proof.
  induction a as [|c a IH]; simpl; [done|]. by rewrite IH, andb_assoc.
Qed.

Lemma string_length_app (a b : string) :
  String.length (a +:+ b) = (String.length a + String.length b)%nat.
Proof. induction a as [|c a IH]; simpl; [done|by rewrite IH]. Qed.

(** [split_point] cuts at the first point. *)
Lemma split_point_spec (s : string) :
  Str.forallb (λ c, negb (point c)) (split_point s).1 = true
  ∧ s = (split_point s).1
        +:+ match (split_point s).2 with
            | Some f => String "." f
            | None => ""
            end.
Proof.
  induction s as [|c s [IH1 IH2]]; simpl; [done|].
  fold (point c). destruct (point c) eqn:Hc; simpl.
  - apply bool_decide_eq_true in Hc. by subst c.
  - destruct (split_point s) as [i f]. simpl in *.
    rewrite Hc. simpl. split; [done|]. by rewrite IH2 at 1.
Qed.

Lemma isdecimal_not_point c : Str.isdecimal c = true → point c = false.
Proof. destruct c as [[] [] [] [] [] [] [] []]; by vm_compute. Qed.

Lemma forallb_impl (p q : ascii → bool) (s : string) :
  (∀ c, p c = true → q c = true) →
  Str.forallb p s = true → Str.forallb q s = true.
Proof.
  intros Hpq. induction s as [|c s IH]; simpl; [done|].
  rewrite !andb_true_iff. intros [Hc Hs]. auto.
Qed.

Lemma filter_none p (s : string) :
  Str.forallb (λ c, negb (p c)) s = true → Str.filter p s = "".
Proof.
  induction s as [|c s IH]; simpl; [done|].
  rewrite andb_true_iff, negb_true_iff. intros [-> Hs]. auto.
Qed.

Lemma filter_all p (s : string) :
  Str.forallb p s = true → Str.filter p s = s.
Proof.
  induction s as [|c s IH]; simpl; [done|].
  rewrite andb_true_iff. intros [-> Hs]. by rewrite IH.
Qed.

Lemma forallb_decimal_split (s : string) :
  Str.forallb Str.isdecimal s = true
  ↔ Str.forallb decimal_or_point s = true ∧ Str.filter point s = "".
Proof.
  induction s as [|c s IH]; simpl; [done|].
  rewrite !andb_true_iff, IH.
  assert (decimal_or_point c = Str.isdecimal c || point c) as -> by done.
  destruct (Str.isdecimal c) eqn:Hd; simpl.
  - rewrite (isdecimal_not_point c Hd). tauto.
  - destruct (point c); simpl; (split; [by intros [? _]|]).
    + by intros [_ ?].
    + by intros [[? _] _].
Qed.

(** Which texts read as a number: those made of decimal digits and at most
    one point, with at least one digit. *)
Lemma decimal_literal_is_Some (s : string) :
  is_Some (decimal_literal s)
  ↔ Str.forallb decimal_or_point s = true
    ∧ (String.length (Str.filter point s) ≤ 1)%nat
    ∧ (1 ≤ String.length (Str.filter Str.isdecimal s))%nat.
Proof.
  unfold decimal_literal.
  destruct (split_point_spec s) as [Hi Hs].
  destruct (split_point s) as [i f]. simpl in Hi, Hs.
  assert (Str.filter point i = "") as Hpi by by apply filter_none.
  set (f' := default "" f).
  assert (Str.forallb decimal_or_point s
          = Str.forallb decimal_or_point i && Str.forallb decimal_or_point f')
    as Hall.
  { rewrite Hs, forallb_app. by destruct f. }
  assert (String.length (Str.filter Str.isdecimal s)
          = String.length (Str.filter Str.isdecimal (i +:+ f'))) as Hdig.
  { rewrite Hs, !filter_app. by destruct f. }
  assert ((String.length (Str.filter point s) ≤ 1)%nat
          ↔ Str.filter point f' = "") as Hpts.
  { rewrite Hs, filter_app, Hpi.
    destruct f as [f|]; simpl; [|split; [done|lia]].
    unfold f'. simpl.
    destruct (Str.filter point f); simpl; split; (lia || done). }
  rewrite Hall, Hdig, Hpts, andb_true_iff.
  destruct (Str.forallb Str.isdecimal i && Str.forallb Str.isdecimal f'
            && negb (bool_decide (i +:+ f' = ""))) eqn:Hok.
  - rewrite !andb_true_iff, negb_true_iff, bool_decide_eq_false in Hok.
    destruct Hok as [[Hdi Hdf] Hne].
    apply forallb_decimal_split in Hdi as [Hdi _].
    apply forallb_decimal_split in Hdf as [Hdf Hpf].
    split; [intros _|by eauto]. split_and!; try done.
    rewrite filter_all.
    + destruct (i +:+ f'); [done|simpl; lia].
    + rewrite forallb_app, andb_true_iff. split; by apply forallb_decimal_split.
  - split; [by intros [? [=]]|]. intros ([Hdi Hdf] & Hpf & Hlen).
    rewrite <-not_true_iff_false in Hok. destruct Hok.
    rewrite !andb_true_iff, negb_true_iff, bool_decide_eq_false.
    split_and!.
    + by apply forallb_decimal_split.
    + by apply forallb_decimal_split.
    + intros Hnil. rewrite Hnil in Hlen. simpl in Hlen. lia.
Qed.

Lemma digits_value_nonneg (s : string) (acc : Z) :
  0 ≤ acc → Str.forallb Str.isdecimal s = true → 0 ≤ digits_value acc s.
Proof.
  revert acc. induction s as [|c s IH]; intros acc Hacc; simpl; [done|].
  rewrite andb_true_iff. intros [Hc Hs]. apply IH; [|done].
  unfold Str.isdecimal in Hc. rewrite andb_true_iff, !N.leb_le in Hc. lia.
Qed.

Lemma decimal_literal_nonneg (s : string) q :
  decimal_literal s = Some q → (0 <= q)%Q.
Proof.
  unfold decimal_literal. destruct (split_point s) as [i f].
  destruct (_ && _) eqn:Hok; [|done]. intros [= <-].
  rewrite !andb_true_iff in Hok. destruct Hok as [[Hi Hf] _].
  rewrite Qred_correct. unfold Qle. simpl. rewrite Z.mul_1_r.
  apply digits_value_nonneg; [done|].
  by rewrite forallb_app, Hi, Hf.
Qed.

Lemma filter_filter (p q : ascii → bool) (s : string) :
  (∀ c, q c = true → p c = true) →
  Str.filter q (Str.filter p s) = Str.filter q s.
Proof.
  intros Hqp. induction s as [|c s IH]; simpl; [done|].
  destruct (p c) eqn:Hp; simpl; [by rewrite IH|].
  destruct (q c) eqn:Hq; [|done]. by rewrite (Hqp c Hq) in Hp.
Qed.

Lemma point_digit_or_point c : point c = true → digit_or_point c = true.
Proof. unfold digit_or_point, point. intros ->. apply orb_true_r. Qed.

Lemma isdecimal_digit_or_point c :
  Str.isdecimal c = true → digit_or_point c = true.
Proof. destruct c as [[] [] [] [] [] [] [] []]; by vm_compute. Qed.

Section Price.
Context `{RT : Runtime}.

(** C5: when the page of a source is fetched and both elements are found,
    [fetch_price] keeps the digit and decimal-point characters of the
    stripped price text and reads what remains as a decimal number.  When
    that reading exists the record holds it as its price and nothing is
    printed, so that a price text of [$1,234.56 each] and one of [1234.56]
    both give a record priced 1234.56; when it does not exist, as for every
    text without a digit, [fetch_price] returns [None] without raising and
    prints one line. *)
Theorem price_normalization registry w site product_name c u resp html
    price_element name_element out :
  registry_lookup registry site = Ok c →
  request_url c product_name = Ok u →
  http_get w u (headers c) = Ok resp →
  status resp = 200 →
  response_text resp = Ok html →
  find_element (BeautifulSoup html) (price_selector c)
    = Ok (Some price_element) →
  find_element (BeautifulSoup html) (name_selector c)
    = Ok (Some name_element) →
  (∀ q,
     decimal_literal
       (Str.filter (λ x, Str.isdigit x || bool_decide (x = "."%char))
          (Str.strip (text price_element))) = Some q →
     ∃ r, fetch_price registry w site product_name out = (Ok (Some r), out)
          ∧ price r = float_of_decimal q)
  ∧ (text price_element = "$1,234.56 each" ∨ text price_element = "1234.56" →
     ∃ r, fetch_price registry w site product_name out = (Ok (Some r), out)
          ∧ price r = float_of_decimal (Qred (123456 # 100)))
  ∧ (decimal_literal
       (Str.filter (λ x, Str.isdigit x || bool_decide (x = "."%char))
          (Str.strip (text price_element))) = None
     ∨ Str.forallb (λ x, negb (Str.isdigit x)) (text price_element) = true →
     ∃ line,
       fetch_price registry w site product_name out
       = (Ok None, out ++ [line])).
Proof.
  intros Hc Hu Hget Hst Htxt Hpe Hne.
  change (λ x, Str.isdigit x || bool_decide (x = "."%char))
    with digit_or_point.
  assert (∀ q,
    decimal_literal
      (Str.filter digit_or_point (Str.strip (text price_element))) = Some q →
    ∃ r, fetch_price registry w site product_name out = (Ok (Some r), out)
         ∧ price r = float_of_decimal q) as Hreads.
  { intros q Hq.
    exists {| website := site; name := Str.strip (text name_element);
              price := float_of_decimal q; record_url := u;
              timestamp := now_isoformat w site |}.
    split; [|done]. unfold fetch_price.
    cbv [try_except mbind M_bind mret M_ret lift print].
    rewrite Hc, Hu, Hget. simpl. rewrite bool_decide_eq_true_2 by done.
    rewrite Htxt, Hpe, Hne. unfold float_of_str. by rewrite Hq. }
  split_and!.
  - exact Hreads.
  - intros [Ht | Ht]; apply Hreads; rewrite Ht; by vm_compute.
  - intros Hnone.
    assert (decimal_literal
              (Str.filter digit_or_point (Str.strip (text price_element)))
            = None) as Hlit.
    { destruct Hnone as [Hlit | Hdigits]; [done|].
      rewrite filter_strip by apply isspace_not_digit_or_point.
      by apply points_not_literal, filter_no_digit. }
    eexists.
    rewrite (fetch_price_fails registry w site product_name c u
               (UnparsablePrice
                  (Str.filter digit_or_point (Str.strip (text price_element))))
               out Hc Hu).
    + reflexivity.
    + by eapply fails_price.
Qed.

End Price.

Lemma price_normalization_witness :
  ∃ r, fetch_price WEBSITES (Exact.serving Exact.amazon_html) "amazon"
         "gaming laptop" [] = (Ok (Some r), [])
       ∧ price r = Qred (123456 # 100).
Proof.
  set (price_element :=
         Tag "span" (Exact.class_ "a-price-whole")
           [NavigableString "$1,234.56 each"]).
  set (name_element :=
         Tag "span" (Exact.class_ "a-size-medium")
           [NavigableString " Laptop 15 "]).
  assert (registry_lookup WEBSITES "amazon" = Ok amazon) as Hc by evaluate.
  assert (request_url amazon "gaming laptop"
          = Ok "https://www.amazon.com/s?k=gaming+laptop") as Hu by evaluate.
  assert (find_element (BeautifulSoup Exact.amazon_html)
            (price_selector amazon) = Ok (Some price_element)) as Hpe
    by evaluate.
  assert (find_element (BeautifulSoup Exact.amazon_html)
            (name_selector amazon) = Ok (Some name_element)) as Hne
    by evaluate.
  exact (proj1 (proj2
    (price_normalization WEBSITES (Exact.serving Exact.amazon_html)
       "amazon" "gaming laptop" amazon
       "https://www.amazon.com/s?k=gaming+laptop"
       {| status := 200; response_text := Ok Exact.amazon_html |}
       Exact.amazon_html price_element name_element []
       Hc Hu eq_refl eq_refl eq_refl Hpe Hne))
    (or_introl eq_refl)).
Defined.

Section PriceText.
Context `{RT : Runtime}.

(** X5: the price text of a page yields a price exactly when, among its digit
    and point characters, there is no superscript digit, at most one point
    and at least one decimal digit; the characters around them play no
    part. *)
Theorem price_text_readable (price_text : string) :
  (∃ p, float_of_str (Str.filter digit_or_point (Str.strip price_text)) = Ok p)
  ↔ Str.forallb decimal_or_point (Str.filter digit_or_point price_text) = true
    ∧ (String.length (Str.filter point price_text) ≤ 1)%nat
    ∧ (1 ≤ String.length (Str.filter Str.isdecimal price_text))%nat.
Proof.
  rewrite filter_strip by apply isspace_not_digit_or_point.
  rewrite <-(filter_filter digit_or_point point price_text)
    by apply point_digit_or_point.
  rewrite <-(filter_filter digit_or_point Str.isdecimal price_text)
    by apply isdecimal_digit_or_point.
  rewrite <-decimal_literal_is_Some. unfold float_of_str.
  destruct (decimal_literal _) as [q|]; split.
  - by eauto.
  - by eauto.
  - by intros [? [=]].
  - by intros [? [=]].
Qed.

(** X6: a character that is neither a digit nor a point, wherever it stands in
    the price text, changes nothing to the price read, nor to whether one
    is read. *)
Theorem price_ignores_other_characters (before after : string) (c : ascii) :
  digit_or_point c = false →
  float_of_str
    (Str.filter digit_or_point (Str.strip (before +:+ String c after)))
  = float_of_str (Str.filter digit_or_point (Str.strip (before +:+ after))).
Proof.
  intros Hc.
  rewrite !filter_strip by apply isspace_not_digit_or_point.
  rewrite !filter_app. simpl. by rewrite Hc.
Qed.

(** X7: a price is the float of a decimal that is not negative. *)
Theorem price_not_negative (price_text : string) (p : float) :
  float_of_str (Str.filter digit_or_point (Str.strip price_text)) = Ok p →
  ∃ q, p = float_of_decimal q ∧ (0 <= q)%Q.
Proof.
  unfold float_of_str.
  destruct (decimal_literal _) as [q|] eqn:Hq; [|done].
  intros [= <-]. exists q. split; [done|]. by eapply decimal_literal_nonneg.
Qed.

End PriceText.

(** ** The fetcher, further *)

Lemma registry_lookup_absent (registry : list (string * config)) site :
  site ∉ registry_keys registry →
  registry_lookup registry site = Raise (KeyError site).
Proof.
  induction registry as [|[k c] registry IH]; simpl; [done|].
  rewrite not_elem_of_cons. intros [Hne Hnot].
  rewrite bool_decide_eq_false_2 by done. by apply IH.
Qed.

Lemma plus_spaces_no_space (s : string) :
  Str.forallb (λ c, negb (bool_decide (c = " "%char))) (plus_spaces s) = true.
Proof.
  induction s as [|c s IH]; simpl; [done|]. rewrite IH, andb_true_r.
  by destruct (bool_decide (c = " "%char)) eqn:Hc; [|rewrite Hc].
Qed.

Section Fetcher.
Context `{RT : Runtime}.
Implicit Types (registry : list (string * config)) (w : world).

Lemma fetch_price_some registry w site product_name out r out' :
  fetch_price registry w site product_name out = (Ok (Some r), out') →
  ∃ c u resp html price_element name_element p,
    registry_lookup registry site = Ok c
    ∧ request_url c product_name = Ok u
    ∧ http_get w u (headers c) = Ok resp
    ∧ status resp = 200
    ∧ response_text resp = Ok html
    ∧ find_element (BeautifulSoup html) (price_selector c)
      = Ok (Some price_element)
    ∧ find_element (BeautifulSoup html) (name_selector c)
      = Ok (Some name_element)
    ∧ float_of_str
        (Str.filter digit_or_point (Str.strip (text price_element))) = Ok p
    ∧ r = {| website := site;
             name := Str.strip (text name_element);
             price := p;
             record_url := u;
             timestamp := now_isoformat w site |}
    ∧ out' = out.
Proof.
  unfold fetch_price.
  cbv [try_except mbind M_bind mret M_ret lift print]. simpl.
  repeat (run_step; simpl); intros ?; simplify_eq/=.
  match goal with H : bool_decide _ = true |- _ =>
    apply bool_decide_eq_true in H end.
  eauto 20.
Qed.

(** X1: [fetch_price] returns a record exactly when the source is registered,
    the request is answered with status 200 and a readable body, both
    elements are found and the price text reads as a number; the record
    then holds the source, the trimmed name, that number and the requested
    URL, and nothing is printed. *)
Theorem fetch_price_record registry w site product_name out r out' :
  fetch_price registry w site product_name out = (Ok (Some r), out')
  ↔ ∃ c u resp html price_element name_element p,
      registry_lookup registry site = Ok c
      ∧ request_url c product_name = Ok u
      ∧ http_get w u (headers c) = Ok resp
      ∧ status resp = 200
      ∧ response_text resp = Ok html
      ∧ find_element (BeautifulSoup html) (price_selector c)
        = Ok (Some price_element)
      ∧ find_element (BeautifulSoup html) (name_selector c)
        = Ok (Some name_element)
      ∧ float_of_str
          (Str.filter digit_or_point (Str.strip (text price_element))) = Ok p
      ∧ r = {| website := site;
               name := Str.strip (text name_element);
               price := p;
               record_url := u;
               timestamp := now_isoformat w site |}
      ∧ out' = out.
Proof.
  split; [apply fetch_price_some|].
  intros (c & u & resp & html & pe & ne & p
          & Hc & Hu & Hget & Hst & Htxt & Hpe & Hne & Hp & -> & ->).
  unfold fetch_price.
  cbv [try_except mbind M_bind mret M_ret lift print].
  rewrite Hc, Hu, Hget. simpl.
  rewrite bool_decide_eq_true_2 by done. by rewrite Htxt, Hpe, Hne, Hp.
Qed.

(** X2: the name of a fetched record neither begins nor ends with
    whitespace. *)
Theorem fetch_price_name_trimmed registry w site product_name out r out' :
  fetch_price registry w site product_name out = (Ok (Some r), out') →
  (∀ c t, name r = String c t → Str.isspace c = false)
  ∧ (∀ t c, name r = t +:+ String c "" → Str.isspace c = false).
Proof.
  intros Hr. apply fetch_price_some in Hr
    as (c & u & resp & html & pe & ne & p & _ & _ & _ & _ & _ & _ & _ & _
        & -> & _).
  simpl. split; [apply strip_head|apply strip_last].
Qed.

(** X3: a source that is not in the registry gives no record: the lookup
    fails, the failure is printed and no request is made. *)
Theorem fetch_price_unknown_source registry w site product_name out :
  site ∉ registry_keys registry →
  fetch_price registry w site product_name out
  = (Ok None,
     out ++ ["Error fetching from " +:+ site +:+ ": " +:+ Str.repr site]).
Proof.
  intros Hsite. unfold fetch_price.
  cbv [try_except mbind M_bind mret M_ret lift print].
  by rewrite registry_lookup_absent.
Qed.

End Fetcher.

(** X4: with a template that has no space around its slot, the request URL has
    no space either, and is as long as the template less its slot plus the
    product name. *)
Theorem request_url_no_space (c : config) (pre post product_name : string) :
  url c = pre +:+ "{}" +:+ post →
  Str.forallb (λ ch, negb (brace ch) && negb (bool_decide (ch = " "%char)))
    (pre +:+ post) = true →
  ∃ u, request_url c product_name = Ok u
       ∧ Str.forallb (λ ch, negb (bool_decide (ch = " "%char))) u = true
       ∧ String.length u
         = (String.length (url c) - 2 + String.length product_name)%nat.
Proof.
  intros Hurl Hpp. rewrite forallb_app, andb_true_iff in Hpp.
  destruct Hpp as [Hpre Hpost].
  assert (∀ s, Str.forallb
            (λ ch, negb (brace ch) && negb (bool_decide (ch = " "%char))) s
            = true →
          Str.forallb (λ ch, negb (brace ch)) s = true
          ∧ Str.forallb (λ ch, negb (bool_decide (ch = " "%char))) s = true)
    as Hboth.
  { intros s Hs. split; (eapply forallb_impl; [|exact Hs]); simpl;
      intros ch; rewrite andb_true_iff; tauto. }
  destruct (Hboth pre Hpre) as [Hpre1 Hpre2].
  destruct (Hboth post Hpost) as [Hpost1 Hpost2].
  unfold request_url.
  rewrite Hurl, replace_space, str_format_slot by done.
  eexists. split; [done|]. split.
  - by rewrite !forallb_app, Hpre2, Hpost2, plus_spaces_no_space.
  - rewrite !string_length_app, plus_spaces_length. simpl. lia.
Qed.

(** ** The aggregator, further *)

Section SortMore.
Context {A : Type} (lt : A → A → bool).

Lemma sort_insert_head x (l : list A) :
  Forall (not_above lt x) l → sort_insert lt x l = x :: l.
Proof.
  destruct l as [|y l]; simpl; [done|].
  intros H. apply Forall_cons in H as [Hy _]. unfold not_above in Hy.
  by rewrite Hy.
Qed.

(** A list that is in order is left as it is. *)
Lemma list_sort_sorted_id (l : list A) :
  StronglySorted (not_above lt) l → list_sort lt l = l.
Proof.
  induction 1 as [|x l Hl IH Hx]; simpl; [done|].
  fold (list_sort lt l). rewrite IH. by apply sort_insert_head.
Qed.

Lemma filter_cons_split (f : A → bool) (l : list A) x tl :
  List.filter f l = x :: tl →
  ∃ l1 l2, l = l1 ++ x :: l2 ∧ Forall (λ y, f y = false) l1 ∧ f x = true.
Proof.
  induction l as [|y l IH]; simpl; [done|].
  destruct (f y) eqn:Hy.
  - intros [= -> _]. by exists [], l.
  - intros H. destruct (IH H) as (l1 & l2 & -> & Hl1 & Hx).
    exists (y :: l1), l2. split_and!; [done|by constructor|done].
Qed.

End SortMore.

Section AggregatorMore.
Context `{RT : Runtime}.
Implicit Types (registry : list (string * config)) (w : world).

Lemma fetch_outcome_lines registry w site product_name :
  (length (fetch_outcome registry w site product_name).2 ≤ 1)%nat.
Proof.
  unfold fetch_outcome, fetch_price.
  cbv [try_except mbind M_bind mret M_ret lift print]. simpl.
  repeat (run_step; simpl); simplify_eq/=; lia.
Qed.

Lemma fetched_lines registry w product_name (sites : list string) :
  (length (concat
     (map (λ site, (fetch_outcome registry w site product_name).2) sites))
   ≤ length sites)%nat.
Proof.
  induction sites as [|site sites IH]; simpl; [done|].
  rewrite length_app.
  pose proof (fetch_outcome_lines registry w site product_name). lia.
Qed.

Lemma valid_length (results : list (option price_record)) :
  (length (valid results) ≤ length results)%nat.
Proof.
  unfold valid, omap. induction results as [|[r|] results IH]; simpl; lia.
Qed.

(** X8: [compare_prices] always returns a text and never lets an exception
    out, nor ever reports one: the text is the no-prices message or a
    report under the heading for the product, with one entry for each
    source that gave a record; and it prints at most one line for each
    source of the registry. *)
Theorem compare_prices_total registry w product_name out :
  ∃ text lines,
    compare_prices registry w product_name out = (Ok text, out ++ lines)
    ∧ (length lines ≤ length registry)%nat
    ∧ (text = "No prices found for " +:+ product_name
       ∨ ∃ best worst,
           text = (render_header product_name
                   +:+ render_entries 1
                         (sort_by_price (valid (fetched registry w product_name))))
                  +:+ render_summary best worst
                        (length (valid (fetched registry w product_name))))
    ∧ (length (valid (fetched registry w product_name)) ≤ length registry)%nat.
Proof.
  rewrite compare_prices_run. unfold report.
  pose proof (fetched_lines registry w product_name (registry_keys registry))
    as Hlines.
  unfold registry_keys in Hlines at 2. rewrite length_map in Hlines.
  assert (length (valid (fetched registry w product_name)) ≤ length registry)%nat
    as Hcount.
  { etrans; [apply valid_length|].
    unfold fetched, registry_keys. by rewrite !length_map. }
  destruct (valid (fetched registry w product_name)) as [|r records] eqn:Hv.
  { simpl. eexists _, _. split_and!; [done|done|by left|done]. }
  pose proof (list_sort_perm cheaper (r :: records)) as Hperm.
  fold (sort_by_price (r :: records)) in Hperm.
  destruct (sort_by_price (r :: records)) as [|best rest] eqn:Hranked.
  { by apply Permutation_nil_l in Hperm. }
  destruct (last (best :: rest)) as [worst|] eqn:Hlast;
    [|by apply last_None in Hlast].
  cbv [mbind M_bind lift mret M_ret]. simpl list_first.
  unfold list_last. rewrite Hlast.
  eexists _, _. split_and!; [done|done| |done].
  right. exists best, worst. by rewrite (Permutation_length Hperm).
Qed.

(** X9: among the sources with the lowest price, the Best Deal is the first in
    the order of the registry: every record before it is dearer, and no
    record after it is cheaper. *)
Theorem best_deal_first_in_registry registry w product_name best :
  (∀ x y, float_lt x y = true → float_lt y x = false) →
  (∀ x y z, float_lt x z = true → float_lt x y = true ∨ float_lt y z = true) →
  head (sort_by_price (valid (fetched registry w product_name))) = Some best →
  ∃ before after,
    valid (fetched registry w product_name) = before ++ best :: after
    ∧ Forall (λ r, cheaper best r = true) before
    ∧ Forall (λ r, cheaper r best = false) after.
Proof.
  intros Hasym Hneg Hbest.
  set (records := valid (fetched registry w product_name)) in *.
  assert (∀ a b, cheaper a b = true → cheaper b a = false) as Hasym'
    by (intros a b; apply Hasym).
  assert (∀ a b c, cheaper a c = true →
                   cheaper a b = true ∨ cheaper b c = true) as Hneg'
    by (intros a b c; apply Hneg).
  pose proof (list_sort_perm cheaper records) as Hperm.
  pose proof (list_sort_sorted cheaper Hasym' Hneg' records) as Hsorted.
  pose proof (list_sort_stable cheaper Hneg' best records) as Hstable.
  fold (sort_by_price records) in Hperm, Hsorted, Hstable.
  destruct (sort_by_price records) as [|b rest]; simplify_eq/=.
  assert (cheaper best best = false) as Hirr.
  { destruct (cheaper best best) eqn:Hbb; [|done].
    by rewrite (Hasym' _ _ Hbb) in Hbb. }
  assert (Forall (not_above cheaper best) records) as Hmin.
  { rewrite <-Hperm. apply StronglySorted_inv in Hsorted as [_ ?].
    by constructor. }
  unfold equivalent at 1 in Hstable. rewrite Hirr in Hstable. simpl in Hstable.
  symmetry in Hstable.
  apply filter_cons_split in Hstable as (before & after & Hrec & Hbefore & _).
  exists before, after. rewrite Hrec in Hmin.
  apply Forall_app in Hmin as [Hmin1 Hmin2].
  apply Forall_cons in Hmin2 as [_ Hmin2].
  split_and!; [done| |done].
  apply Forall_forall. intros r Hr.
  rewrite Forall_forall in Hbefore, Hmin1.
  specialize (Hbefore r Hr). specialize (Hmin1 r Hr).
  unfold equivalent, not_above in *.
  rewrite Hmin1, andb_true_r, negb_false_iff in Hbefore. done.
Qed.

(** X10: sorting twice is sorting once, and records that come in ascending
    order of price are rendered in the order they came. *)
Theorem sort_by_price_idempotent (l : list price_record) :
  (∀ x y, float_lt x y = true → float_lt y x = false) →
  (∀ x y z, float_lt x z = true → float_lt x y = true ∨ float_lt y z = true) →
  sort_by_price (sort_by_price l) = sort_by_price l
  ∧ (StronglySorted (not_above cheaper) l → sort_by_price l = l).
Proof.
  intros Hasym Hneg. split; [|apply list_sort_sorted_id].
  apply list_sort_sorted_id. apply list_sort_sorted.
  - intros a b. apply Hasym.
  - intros a b c. apply Hneg.
Qed.

End AggregatorMore.

(** ** The extractor, further *)

Lemma search_tag_attribute key v (t : node) :
  search_tag None {[ key := v ]} t = true
  ↔ ∃ nm attrs cs, t = Tag nm attrs cs ∧ matches (attrs !! key) v = true.
Proof.
  destruct t as [x|nm attrs cs]; simpl.
  - split; [done|]. by intros (? & ? & ? & ? & _).
  - unfold search_tag. simpl.
    rewrite bool_decide_eq_true, map_Forall_singleton.
    split; [by eauto|]. by intros (? & ? & ? & [= <- <- <-] & ?).
Qed.

Lemma search_tag_name nm' (t : node) :
  search_tag (Some nm') ∅ t = true ↔ ∃ attrs cs, t = Tag nm' attrs cs.
Proof.
  destruct t as [x|nm attrs cs]; simpl.
  - split; [done|]. by intros (? & ? & ?).
  - unfold search_tag. simpl.
    rewrite andb_true_iff, !bool_decide_eq_true.
    split.
    + intros [-> _]. eauto.
    + intros (? & ? & [= -> <- <-]). split; [done|]. apply map_Forall_empty.
Qed.

Section ExtractorMore.
Context `{RT : Runtime}.

(** X11: with a rule whose class, or whose id when it has no class, is a
    string, [find_element] does not raise: it returns a tag of the document
    whose attribute matches the string, or [None] when no tag of the
    document has a matching attribute. *)
Theorem find_element_by_attribute (s : soup) (d : gmap string value) key v :
  key = "class" ∨ (key = "id" ∧ d !! "class" = None) →
  d !! key = Some (VStr v) →
  ∃ r, find_element s (SelDict d) = Ok r
       ∧ match r with
         | Some t =>
             t ∈ soup_descendants s
             ∧ ∃ nm attrs cs,
                 t = Tag nm attrs cs ∧ matches (attrs !! key) v = true
         | None =>
             ∀ nm attrs cs,
               Tag nm attrs cs ∈ soup_descendants s →
               matches (attrs !! key) v = false
         end.
Proof.
  intros Hkey Hv.
  assert (find_element s (SelDict d) = Ok (find None {[ key := v ]} s)) as ->.
  { simpl. destruct Hkey as [->|[-> Hclass]]; [by rewrite Hv|].
    by rewrite Hclass, Hv. }
  eexists. split; [done|]. unfold find.
  destruct (List.find _ _) as [t|] eqn:Hfind.
  - apply find_some in Hfind as [Hin Ht]. split; [by apply list_elem_of_In|].
    by apply search_tag_attribute.
  - intros nm attrs cs Hin. apply list_elem_of_In in Hin.
    pose proof (find_none _ _ Hfind _ Hin) as Hno.
    destruct (matches (attrs !! key) v) eqn:Hm; [|done].
    rewrite <-Hno. symmetry. apply search_tag_attribute. eauto.
Qed.

(** X12: with a rule that has neither class nor id and whose tag is a string,
    [find_element] does not raise: it returns a tag of the document with
    that name, whatever the rule says of attributes, or [None] when the
    document has no tag of that name. *)
Theorem find_element_by_tag (s : soup) (d : gmap string value) nm :
  d !! "class" = None → d !! "id" = None → d !! "tag" = Some (VStr nm) →
  ∃ r, find_element s (SelDict d) = Ok r
       ∧ match r with
         | Some t => t ∈ soup_descendants s ∧ ∃ attrs cs, t = Tag nm attrs cs
         | None => ∀ attrs cs, Tag nm attrs cs ∉ soup_descendants s
         end.
Proof.
  intros Hclass Hid Htag.
  assert (find_element s (SelDict d) = Ok (find (Some nm) ∅ s)) as ->.
  { simpl. by rewrite Hclass, Hid, Htag. }
  eexists. split; [done|]. unfold find.
  destruct (List.find _ _) as [t|] eqn:Hfind.
  - apply find_some in Hfind as [Hin Ht]. split; [by apply list_elem_of_In|].
    by apply search_tag_name.
  - intros attrs cs Hin. apply list_elem_of_In in Hin.
    pose proof (find_none _ _ Hfind _ Hin) as Hno.
    rewrite <-not_true_iff_false in Hno. apply Hno.
    apply search_tag_name. eauto.
Qed.

End ExtractorMore.

(** * The client *)

Section ClientProperties.
Import Client.
Implicit Types (sv : services).

(** X13: [get_ai_analysis] never raises: when the tokenizer or the generation
    fails it prints the exception and returns a text that names it, and
    otherwise it returns the answer of the model, trimmed. *)
Theorem get_ai_analysis_outcome sv price_data out :
  ∃ text lines,
    get_ai_analysis sv price_data out = (Ok text, out ++ lines)
    ∧ match tokenize sv (prompt price_data) with
      | Raise e =>
          text = "Error getting AI analysis: " +:+ exn_str e
          ∧ lines = ["Debug: Exception details: " +:+ exn_str e]
      | Ok inputs =>
          match generate sv inputs with
          | Raise e =>
              text = "Error getting AI analysis: " +:+ exn_str e
              ∧ lines = ["Generating analysis...";
                         "Debug: Exception details: " +:+ exn_str e]
          | Ok response =>
              text = Str.strip response ∧ lines = ["Generating analysis..."]
          end
      end.
Proof.
  unfold get_ai_analysis.
  cbv [try_except mbind M_bind mret M_ret lift print].
  destruct (tokenize sv (prompt price_data)) as [inputs|e]; simpl.
  - destruct (generate sv inputs) as [response|e]; simpl.
    + by eexists _, _.
    + eexists _, _. split; [by rewrite <-app_assoc|done].
  - by eexists _, _.
Qed.

Lemma get_ai_analysis_returns sv price_data out :
  ∃ analysis lines,
    get_ai_analysis sv price_data out = (Ok analysis, out ++ lines).
Proof.
  unfold get_ai_analysis.
  cbv [try_except mbind M_bind mret M_ret lift print].
  destruct (tokenize sv (prompt price_data)) as [inputs|e]; simpl.
  - destruct (generate sv inputs) as [response|e]; simpl.
    + by eexists _, _.
    + eexists _, _. by rewrite <-app_assoc.
  - by eexists _, _.
Qed.

(** X14: when the server answers the call with a text, the recommendation holds
    that text under its heading whatever the model does: a failure of the
    model only replaces the analysis below it. *)
Theorem recommendation_keeps_prices sv product_name price_data others out :
  call_tool sv "compare_prices" (Some [("product_name", product_name)])
    = Ok (TextContent price_data :: others) →
  ∃ analysis lines,
    get_shopping_recommendation sv product_name out
    = (Ok ("Price Comparison:" +:+ Str.LF +:+ price_data +:+ Str.LF +:+ Str.LF
           +:+ "AI Analysis:" +:+ Str.LF +:+ analysis),
       out ++ lines)
    ∧ get_ai_analysis sv price_data out = (Ok analysis, out ++ lines).
Proof.
  intros Hcall.
  destruct (get_ai_analysis_returns sv price_data out)
    as (analysis & lines & Hai).
  exists analysis, lines. split; [|done].
  unfold get_shopping_recommendation, compare_prices.
  cbv [try_except mbind M_bind mret M_ret lift]. rewrite Hcall. simpl.
  by rewrite Hai.
Qed.

(** X15: when the call to the server fails, or its result holds no text, the
    recommendation is a text that names the failure; the model is not run
    and nothing is printed. *)
Theorem recommendation_without_prices sv product_name out :
  (∀ e, call_tool sv "compare_prices" (Some [("product_name", product_name)])
          = Raise e →
        get_shopping_recommendation sv product_name out
        = (Ok ("Error getting recommendation: " +:+ exn_str e), out))
  ∧ (call_tool sv "compare_prices" (Some [("product_name", product_name)])
       = Ok [] →
     get_shopping_recommendation sv product_name out
     = (Ok "Error getting recommendation: list index out of range", out))
  ∧ (∀ others,
       call_tool sv "compare_prices" (Some [("product_name", product_name)])
         = Ok (ImageContent :: others) →
       get_shopping_recommendation sv product_name out
       = (Ok "Error getting recommendation: 'ImageContent' object has no attribute 'text'",
          out)).
Proof.
  unfold get_shopping_recommendation, compare_prices.
  cbv [try_except mbind M_bind mret M_ret lift].
  split_and!; [intros e Hcall|intros Hcall|intros others Hcall];
    by rewrite Hcall.
Qed.

Lemma run_not_closed {A} (m : M A) : Forall (λ e, e ≠ Closed) (run m).1.
Proof.
  unfold run. destruct (m []) as [r out]. simpl.
  induction out; simpl; by constructor.
Qed.

Ltac not_closed :=
  repeat first
    [ assumption
    | apply Forall_nil_2
    | apply Forall_cons_2; [discriminate|]
    | apply Forall_app_2 ].

Lemma menu_loop_not_closed sv (stdin : list string) :
  Forall (λ e, e ≠ Closed) (menu_loop sv stdin).1.
Proof.
  remember (length stdin) as n eqn:Hn.
  revert stdin Hn. induction n as [n IH] using lt_wf_ind. intros stdin ->.
  destruct stdin as [|choice typed]; simpl; [not_closed|].
  assert (∀ rest : list string, (length rest ≤ length typed)%nat →
            Forall (λ e, e ≠ Closed) (menu_loop sv rest).1) as IH'.
  { intros rest Hrest. eapply IH; [|done]. simpl. lia. }
  repeat case_bool_decide.
  - destruct typed as [|product_name typed']; simpl; [not_closed|].
    pose proof (run_not_closed (compare_prices sv product_name)) as Hrun.
    pose proof (IH' typed' ltac:(simpl; lia)) as Hrest.
    destruct (run _) as [printed [result|e]];
      [destruct (menu_loop sv typed') as [rest r]|]; simpl in *; not_closed.
  - destruct typed as [|product_name typed']; simpl; [not_closed|].
    pose proof (run_not_closed (get_shopping_recommendation sv product_name))
      as Hrun.
    pose proof (IH' typed' ltac:(simpl; lia)) as Hrest.
    destruct (run _) as [printed [result|e]];
      [destruct (menu_loop sv typed') as [rest r]|]; simpl in *; not_closed.
  - pose proof (run_not_closed (get_available_websites sv)) as Hrun.
    pose proof (IH' typed ltac:(lia)) as Hrest.
    destruct (run _) as [printed [result|e]];
      [destruct (menu_loop sv typed) as [rest r]|]; simpl in *; not_closed.
  - simpl. not_closed.
  - pose proof (IH' typed ltac:(lia)) as Hrest.
    destruct (menu_loop sv typed) as [rest r]. simpl in *. not_closed.
Qed.

(** X16: whatever is typed and whatever fails, a session releases its
    connection once, as the last thing it does. *)
Theorem main_closes_once sv (stdin : list string) :
  ∃ events, main sv stdin = events ++ [Closed]
            ∧ Forall (λ e, e ≠ Closed) events.
Proof.
  unfold main.
  pose proof (run_not_closed (connect_to_server sv)) as Hrun.
  pose proof (menu_loop_not_closed sv stdin) as Hloop.
  destruct (run (connect_to_server sv)) as [printed [[]|e]].
  - destruct (menu_loop sv stdin) as [rest r]. simpl in *.
    exists (Printed "Connecting to price comparison server..."
            :: (printed ++ Printed "Connected successfully!" :: rest)
            ++ match r with
               | Ok _ => []
               | Raise e => [Printed ("Error: " +:+ exn_str e)]
               end).
    split; [simpl; f_equal; apply app_assoc|]. destruct r; not_closed.
  - simpl in *.
    exists (Printed "Connecting to price comparison server..."
            :: printed ++ [Printed ("Error: " +:+ exn_str e)]).
    split; [simpl; f_equal; by rewrite <-app_assoc|]. not_closed.
Qed.

Lemma menu_loop_needs_exit sv (stdin : list string) :
  "4" ∉ stdin → ∃ e, (menu_loop sv stdin).2 = Raise e.
Proof.
  remember (length stdin) as n eqn:Hn.
  revert stdin Hn. induction n as [n IH] using lt_wf_ind. intros stdin ->.
  destruct stdin as [|choice typed]; simpl; [by eauto|].
  rewrite not_elem_of_cons. intros [Hchoice Htyped].
  assert (∀ rest : list string, (length rest ≤ length typed)%nat →
            "4" ∉ rest → ∃ e, (menu_loop sv rest).2 = Raise e) as IH'.
  { intros rest Hrest. eapply IH; [|done]. simpl. lia. }
  repeat case_bool_decide; try done.
  - destruct typed as [|product_name typed']; simpl; [by eauto|].
    apply not_elem_of_cons in Htyped as [_ Htyped].
    destruct (IH' typed' ltac:(simpl; lia) Htyped) as [e He].
    destruct (run _) as [printed [result|e']]; [|by eauto].
    destruct (menu_loop sv typed') as [rest r]. simpl in *. eauto.
  - destruct typed as [|product_name typed']; simpl; [by eauto|].
    apply not_elem_of_cons in Htyped as [_ Htyped].
    destruct (IH' typed' ltac:(simpl; lia) Htyped) as [e He].
    destruct (run _) as [printed [result|e']]; [|by eauto].
    destruct (menu_loop sv typed') as [rest r]. simpl in *. eauto.
  - destruct (IH' typed ltac:(lia) Htyped) as [e He].
    destruct (run _) as [printed [result|e']]; [|by eauto].
    destruct (menu_loop sv typed) as [rest r]. simpl in *. eauto.
  - destruct (IH' typed ltac:(lia) Htyped) as [e He].
    destruct (menu_loop sv typed) as [rest r]. simpl in *. eauto.
Qed.

(** X17: the menu is left without an error only by the choice 4: a session in
    which 4 is never typed ends with the report of an exception, followed
    by the release of the connection. *)
Theorem main_needs_exit sv (stdin : list string) :
  "4" ∉ stdin →
  ∃ events e,
    main sv stdin = events ++ [Printed ("Error: " +:+ exn_str e); Closed].
Proof.
  intros Hexit. unfold main.
  destruct (menu_loop_needs_exit sv stdin Hexit) as [e He].
  destruct (run (connect_to_server sv)) as [printed [[]|e']].
  - destruct (menu_loop sv stdin) as [rest r]. simpl in *. subst r.
    by exists (Printed "Connecting to price comparison server..."
               :: printed ++ Printed "Connected successfully!" :: rest), e.
  - by exists (Printed "Connecting to price comparison server..." :: printed),
              e'.
Qed.

(** X18: when the connection to the server fails, nothing is asked at the
    terminal: the session prints the failure and releases what it
    holds. *)
Theorem main_unreachable sv (stdin : list string) e :
  connect sv = Raise e →
  main sv stdin
  = [ Printed "Connecting to price comparison server...";
      Printed ("Error: " +:+ exn_str e);
      Closed ].
Proof.
  intros Hconnect. unfold main, run, connect_to_server.
  cbv [mbind M_bind lift]. by rewrite Hconnect.
Qed.

End ClientProperties.

(** ** Instances of the further theorems *)

Lemma price_ignores_other_characters_witness :
  float_of_str
    (Str.filter digit_or_point (Str.strip ("$1" +:+ String "," "234.56")))
  = float_of_str (Str.filter digit_or_point (Str.strip ("$1" +:+ "234.56"))).
Proof.
  apply (price_ignores_other_characters "$1" "234.56" ","%char).
  reflexivity.
Defined.

Lemma price_not_negative_witness :
  ∃ q, float_of_decimal (Qred (123456 # 100)) = float_of_decimal q
       ∧ (0 <= q)%Q.
Proof.
  apply (price_not_negative "$1,234.56 each"). evaluate.
Defined.

Lemma fetch_price_name_trimmed_witness :
  (∀ c t, "Laptop 15" = String c t → Str.isspace c = false)
  ∧ (∀ t c, "Laptop 15" = t +:+ String c "" → Str.isspace c = false).
Proof.
  apply (fetch_price_name_trimmed (RT := Exact.runtime) WEBSITES
           (Exact.serving Exact.amazon_html)
           "amazon" "gaming laptop" []
           (@Build_price_record Exact.runtime "amazon" "Laptop 15"
              (Qred (123456 # 100))
              "https://www.amazon.com/s?k=gaming+laptop"
              "2024-03-01T12:00:00") []).
  evaluate.
Defined.

Lemma fetch_price_unknown_source_witness :
  fetch_price WEBSITES (Exact.serving Exact.amazon_html) "ebay" "laptop" []
  = (Ok None, ["Error fetching from ebay: 'ebay'"]).
Proof.
  apply (fetch_price_unknown_source WEBSITES
           (Exact.serving Exact.amazon_html) "ebay" "laptop" []).
  simpl. repeat (apply not_elem_of_cons; split; [discriminate|]).
  apply not_elem_of_nil.
Defined.

(** [repr] chooses its quotes by the text: single quotes, double quotes
    for a text with a single quote and no double quote, and an escaped
    single quote when the text holds both; the backslash, the control
    characters and the characters that are not printable are escaped. *)
Example repr_quotes :
  Str.repr "ebay" = "'ebay'"
  ∧ Str.repr "o'neil"
    = String Str.double_quote ("o'neil" +:+ String Str.double_quote "")
  ∧ Str.repr ("o'neil " +:+ String Str.double_quote "")
    = "'o\'neil " +:+ String Str.double_quote "'"
  ∧ Str.repr ("a\b" +:+ Str.LF +:+ String "009" (String "027" (String "160" "")))
    = "'a\\b\n\t\x1b\xa0'"
  ∧ Str.repr (String "233" "") = "'" +:+ String "233" "'".
Proof. by vm_compute. Qed.

(** The line printed for an unregistered source whose identifier holds a
    single quote. *)
Example fetch_price_unknown_source_apostrophe :
  fetch_price WEBSITES (Exact.serving Exact.amazon_html) "o'neil" "laptop" []
  = (Ok None,
     ["Error fetching from o'neil: "
      +:+ String Str.double_quote ("o'neil" +:+ String Str.double_quote "")]).
Proof. evaluate. Qed.

Lemma request_url_no_space_witness :
  ∃ u, request_url amazon "gaming laptop" = Ok u
       ∧ Str.forallb (λ ch, negb (bool_decide (ch = " "%char))) u = true
       ∧ String.length u = (27 + 13)%nat.
Proof.
  apply (request_url_no_space amazon "https://www.amazon.com/s?k=" ""
           "gaming laptop"); reflexivity.
Defined.

Lemma best_deal_first_in_registry_witness :
  ∃ before after,
    valid (fetched WEBSITES Exact.market "laptop")
    = before
      ++ {| website := "bestbuy"; name := "Sponsored";
            price := Qred (19999 # 100);
            record_url :=
              "https://www.bestbuy.com/site/searchpage.jsp?st=laptop";
            timestamp := "2024-03-01T12:00:00" |} :: after.
Proof.
  set (best := @Build_price_record Exact.runtime "bestbuy" "Sponsored"
                 (Qred (19999 # 100))
                 "https://www.bestbuy.com/site/searchpage.jsp?st=laptop"
                 "2024-03-01T12:00:00").
  assert (head (sort_by_price (valid (fetched WEBSITES Exact.market "laptop")))
          = Some best) as Hbest by evaluate.
  destruct (best_deal_first_in_registry WEBSITES Exact.market "laptop" best
              exact_lt_asym exact_lt_negtrans Hbest)
    as (before & after & Hsplit & _).
  by exists before, after.
Defined.

Lemma sort_by_price_idempotent_witness :
  sort_by_price
    (sort_by_price [Exact.record "amazon" 5; Exact.record "bestbuy" 3])
  = sort_by_price [Exact.record "amazon" 5; Exact.record "bestbuy" 3].
Proof.
  apply (sort_by_price_idempotent
           [Exact.record "amazon" 5; Exact.record "bestbuy" 3]
           exact_lt_asym exact_lt_negtrans).
Defined.

Lemma find_element_by_attribute_witness :
  ∃ r, find_element Exact.amazon_page (price_selector amazon) = Ok r.
Proof.
  assert (({[ "class" := VStr "a-price-whole" ]} : gmap string value)
            !! "class" = Some (VStr "a-price-whole")) as Hclass by evaluate.
  destruct (find_element_by_attribute Exact.amazon_page
              {[ "class" := VStr "a-price-whole" ]} "class" "a-price-whole"
              (or_introl eq_refl) Hclass)
    as (r & Hr & _).
  by exists r.
Defined.

Lemma find_element_by_tag_witness :
  ∃ r, find_element Exact.bestbuy_page (name_selector bestbuy) = Ok r.
Proof.
  set (d := (<[ "tag" := VStr "h4" ]>
                {[ "attrs" := VDict {[ "class" := "sku-title" ]} ]}
             : gmap string value)).
  assert (d !! "class" = None) as Hclass by evaluate.
  assert (d !! "id" = None) as Hid by evaluate.
  assert (d !! "tag" = Some (VStr "h4")) as Htag by evaluate.
  destruct (find_element_by_tag Exact.bestbuy_page d "h4" Hclass Hid Htag)
    as (r & Hr & _).
  by exists r.
Defined.

Lemma recommendation_keeps_prices_witness :
  ∃ analysis lines,
    Client.get_shopping_recommendation
      (Client.without_model "No prices found for tv") "tv" []
    = (Ok ("Price Comparison:" +:+ Str.LF +:+ "No prices found for tv"
           +:+ Str.LF +:+ Str.LF +:+ "AI Analysis:" +:+ Str.LF +:+ analysis),
       [] ++ lines)
    ∧ Client.get_ai_analysis (Client.without_model "No prices found for tv")
        "No prices found for tv" []
      = (Ok analysis, [] ++ lines).
Proof.
  apply (recommendation_keeps_prices
           (Client.without_model "No prices found for tv") "tv"
           "No prices found for tv" [] []).
  reflexivity.
Defined.

Lemma main_needs_exit_witness :
  ∃ events e,
    Client.main (Client.answering "No prices found for tv" "Wait.") ["3"; "9"]
    = events ++ [Client.Printed ("Error: " +:+ exn_str e); Client.Closed].
Proof.
  apply (main_needs_exit (Client.answering "No prices found for tv" "Wait.")
           ["3"; "9"]).
  repeat (apply not_elem_of_cons; split; [discriminate|]).
  apply not_elem_of_nil.
Defined.

Lemma main_unreachable_witness :
  Client.main Client.unreachable ["1"; "laptop"; "4"]
  = [ Client.Printed "Connecting to price comparison server...";
      Client.Printed "Error: All connection attempts failed";
      Client.Closed ].
Proof.
  apply (main_unreachable Client.unreachable ["1"; "laptop"; "4"]
           (OtherError "All connection attempts failed")).
  reflexivity.
Defined.

(** A session: a recommendation when the model fails, a wrong choice, the
    list of sources, the exit. *)
Example main_session :
  Client.main (Client.without_model "No prices found for tv")
    ["2"; "tv"; "9"; "4"; "1"]
  = [ Client.Printed "Connecting to price comparison server...";
      Client.Printed (Str.LF +:+ "Connected to server with tools:");
      Client.Printed "Connected successfully!" ]
    ++ Client.menu
    ++ [ Client.Prompted
           (Str.LF +:+ "Enter product name for AI recommendation: ");
         Client.Printed
           (Str.LF +:+ "Analyzing prices and getting AI recommendation...");
         Client.Printed "Generating analysis...";
         Client.Printed "Debug: Exception details: CUDA out of memory";
         Client.Printed (Str.LF +:+ "Results:");
         Client.Printed
           ("Price Comparison:" +:+ Str.LF +:+ "No prices found for tv"
            +:+ Str.LF +:+ Str.LF +:+ "AI Analysis:" +:+ Str.LF
            +:+ "Error getting AI analysis: CUDA out of memory") ]
    ++ Client.menu
    ++ [ Client.Printed "Invalid choice. Please try again." ]
    ++ Client.menu
    ++ [ Client.Closed ].
Proof. evaluate. Qed.
